(** * Graphite backend of slo-generator: shallow embedding and properties

    Source: [slo_generator/backends/graphite.py].

    The backend reads a decoded JSON document and walks it with Python's
    dynamically typed subscripting, iteration and comparison.  What the
    code does on a document of the wrong shape is the subject of several
    properties below, so the document is embedded as an untyped value
    ([pyval]) and every primitive returns either a value or the Python
    exception it raises ([result]). *)

From Stdlib Require Import ZArith QArith List String Ascii Bool Lia Permutation.
Import ListNotations.
Set Warnings "-register-all".
Open Scope string_scope.
Open Scope Z_scope.

(** ** Python exceptions and results *)

Module Py.

(** The exception classes that the embedded code can meet.
    [UnboundLocalError] is a subclass of [NameError]; neither it nor
    [TypeError] is a subclass of [IndexError], [KeyError] or
    [ZeroDivisionError]. *)
Inductive exn : Type :=
| IndexError
| KeyError
| ZeroDivisionError
| TypeError
| NameError
| UnboundLocalError
| ValueError
| OverflowError
| OSError
| RequestException.

Inductive result (A : Type) : Type :=
| Return (a : A)
| Raise (e : exn).
Arguments Return {A} a.
Arguments Raise {A} e.

Definition bind {A B : Type} (m : result A) (k : A -> result B) : result B :=
  match m with
  | Return a => k a
  | Raise e => Raise e
  end.

Definition exn_eqb (a b : exn) : bool :=
  match a, b with
  | IndexError, IndexError
  | KeyError, KeyError
  | ZeroDivisionError, ZeroDivisionError
  | TypeError, TypeError
  | NameError, NameError
  | UnboundLocalError, UnboundLocalError
  | ValueError, ValueError
  | OverflowError, OverflowError
  | OSError, OSError
  | RequestException, RequestException => true
  | _, _ => false
  end.

(** [try: body except (classes): handler]: the handler runs when the body
    raises one of the listed classes, any other exception propagates. *)
Definition try_except {A : Type} (body : result A) (classes : list exn)
    (handler : exn -> result A) : result A :=
  match body with
  | Return a => Return a
  | Raise e => if existsb (exn_eqb e) classes then handler e else Raise e
  end.

(** ** Numbers

    An [int] is an unbounded integer.  A finite [float] is the rational it
    denotes; Python compares an int with a float by their exact values, so
    order tests on [Q] are the order tests of the interpreter.  [num] are
    the finite numbers: thresholds and the samples of well-formed
    responses. *)
Inductive num : Type :=
| NInt (z : Z)
| NFloat (q : Q).

(** A [float] at large: the decoder reads [Infinity], [-Infinity] and
    [NaN], and a literal beyond the float range, as the non-finite floats,
    and float arithmetic can produce them. *)
Inductive float_value : Type :=
| Real (q : Q)
| Infinity (negative : bool)
| NaN.

(** The numbers arithmetic and comparisons work on. *)
Inductive number : Type :=
| NumInt (z : Z)
| NumFloat (f : float_value).

Definition num_Q (n : num) : Q :=
  match n with
  | NInt z => inject_Z z
  | NFloat q => q
  end.

Definition num_le (a b : num) : bool := Qle_bool (num_Q a) (num_Q b).
Definition num_lt (a b : num) : bool := negb (Qle_bool (num_Q b) (num_Q a)).
Definition num_eq (a b : num) : bool := Qeq_bool (num_Q a) (num_Q b).

Definition number_of_num (n : num) : number :=
  match n with
  | NInt z => NumInt z
  | NFloat q => NumFloat (Real q)
  end.

(** [x <= t] and [x > t] for a finite [t]: plus infinity lies above every
    finite number and minus infinity below, and every comparison with NaN
    is false. *)
Definition number_le (x : number) (t : num) : bool :=
  match x with
  | NumInt z => num_le (NInt z) t
  | NumFloat (Real q) => num_le (NFloat q) t
  | NumFloat (Infinity negative) => negative
  | NumFloat NaN => false
  end.

Definition number_gt (x : number) (t : num) : bool :=
  match x with
  | NumInt z => num_lt t (NInt z)
  | NumFloat (Real q) => num_lt t (NFloat q)
  | NumFloat (Infinity negative) => negb negative
  | NumFloat NaN => false
  end.

(** ** Decoded JSON values

    A JSON object decodes to a [dict], which keeps its keys in insertion
    order and holds each key once; it is embedded as an association list
    read from the front. *)
Inductive pyval : Type :=
| VNone
| VBool (b : bool)
| VInt (z : Z)
| VFloat (f : float_value)
| VStr (s : string)
| VList (l : list pyval)
| VDict (d : list (string * pyval)).

Definition of_num (n : num) : pyval :=
  match n with
  | NInt z => VInt z
  | NFloat q => VFloat (Real q)
  end.

(** [bool] is a subclass of [int]: [True] and [False] take part in
    arithmetic and comparisons as 1 and 0. *)
Definition as_number (v : pyval) : option number :=
  match v with
  | VBool b => Some (NumInt (if b then 1 else 0))
  | VInt z => Some (NumInt z)
  | VFloat f => Some (NumFloat f)
  | _ => None
  end.

Fixpoint dict_lookup (k : string) (d : list (string * pyval)) : option pyval :=
  match d with
  | [] => None
  | (k', v) :: d' => if String.eqb k k' then Some v else dict_lookup k d'
  end.

(** The one-character strings of [s], in order: what iterating a [str]
    yields. *)
Fixpoint chars (s : string) : list pyval :=
  match s with
  | EmptyString => []
  | String c s' => VStr (String c EmptyString) :: chars s'
  end.

(** [len(v)] *)
Definition py_len (v : pyval) : result nat :=
  match v with
  | VStr s => Return (String.length s)
  | VList l => Return (List.length l)
  | VDict d => Return (List.length d)
  | _ => Raise TypeError
  end.

(** [v[i]] for a non-negative int [i].  A decoded object has only string
    keys, so an int is never one of them. *)
Definition py_getitem_int (v : pyval) (i : nat) : result pyval :=
  match v with
  | VList l =>
      match nth_error l i with
      | Some x => Return x
      | None => Raise IndexError
      end
  | VStr s =>
      match nth_error (chars s) i with
      | Some x => Return x
      | None => Raise IndexError
      end
  | VDict _ => Raise KeyError
  | _ => Raise TypeError
  end.

(** [v[k]] for a string [k]: lists and strings take only ints and slices. *)
Definition py_getitem_str (v : pyval) (k : string) : result pyval :=
  match v with
  | VDict d =>
      match dict_lookup k d with
      | Some x => Return x
      | None => Raise KeyError
      end
  | _ => Raise TypeError
  end.

(** The items a [for] loop over [v] visits.  None of the loops below
    changes what it iterates over, so the items can be listed up front. *)
Definition py_iter (v : pyval) : result (list pyval) :=
  match v with
  | VList l => Return l
  | VStr s => Return (chars s)
  | VDict d => Return (map (fun kv => VStr (fst kv)) d)
  | _ => Raise TypeError
  end.

(** [v is None] *)
Definition is_none (v : pyval) : bool :=
  match v with
  | VNone => true
  | _ => false
  end.

(** [v <= t] and [v > t] against a number [t]: any value that is not a
    number (a string, a list, a dict, [None]) is unorderable with one. *)
Definition py_le (v : pyval) (t : num) : result bool :=
  match as_number v with
  | Some x => Return (number_le x t)
  | None => Raise TypeError
  end.

Definition py_gt (v : pyval) (t : num) : result bool :=
  match as_number v with
  | Some x => Return (number_gt x t)
  | None => Raise TypeError
  end.

End Py.
Export Py.

Notation "x <- m ;; k" := (bind m (fun x => k))
  (at level 61, m at next level, right associativity).

(** ** Dates: [datetime.fromtimestamp] and [strftime]

    Both belong to the Python standard library; they are embedded as
    CPython runs them on 64-bit Linux with the GNU C library.
    [fromtimestamp] gives the local date and time of an instant; the local
    offset from UTC (time zone and daylight saving, in seconds east of
    Greenwich, as a function of the instant) is a parameter of the
    embedding.  The calendar is the proleptic Gregorian one.  Instants are
    taken within the platform's [time_t]; beyond it the conversion of the
    argument fails before any date is computed. *)

Module DateTime.

Record datetime : Type := {
  year : Z; month : Z; day : Z; hour : Z; minute : Z; second : Z
}.

Definition MINYEAR : Z := 1.
Definition MAXYEAR : Z := 9999.

(** Year, month and day of the day that lies [days] days after
    1970-01-01.  Years are counted from 1 March inside 400-year eras. *)
Definition civil_from_days (days : Z) : Z * Z * Z :=
  let z := days + 719468 in
  let era := z / 146097 in
  let doe := z mod 146097 in
  let yoe := (doe - doe / 1460 + doe / 36524 - doe / 146096) / 365 in
  let doy := doe - (365 * yoe + yoe / 4 - yoe / 100) in
  let mp := (5 * doy + 2) / 153 in
  let d := doy - (153 * mp + 2) / 5 + 1 in
  let m := if mp <? 10 then mp + 3 else mp - 9 in
  let y := yoe + era * 400 + (if m <=? 2 then 1 else 0) in
  (y, m, d).

Definition year_of (local : Z) : Z :=
  fst (fst (civil_from_days (local / 86400))).

(** The C library's [localtime] fails when the year, counted from 1900,
    does not fit a C [int]. *)
Definition localtime_ok (local : Z) : bool :=
  (-2147483648 <=? year_of local - 1900)
  && (year_of local - 1900 <=? 2147483647).

Definition year_ok (local : Z) : bool :=
  (MINYEAR <=? year_of local) && (year_of local <=? MAXYEAR).

(** [datetime.fromtimestamp(timestamp)].  A failure of [localtime] is an
    [OSError]; a year outside [MINYEAR..MAXYEAR] is refused with
    [ValueError].  To tell a repeated local time the library also looks
    at the local time one day earlier, which must itself be a date it can
    hold: the whole first day of year 1 is refused.  That earlier local
    time is taken here at the offset of the instant itself. *)
Definition fromtimestamp (utcoffset : Z -> Z) (timestamp : Z) : result datetime :=
  let local := timestamp + utcoffset timestamp in
  let '(y, m, d) := civil_from_days (local / 86400) in
  let sod := local mod 86400 in
  if negb (localtime_ok local) then Raise OSError
  else if negb (year_ok local) then Raise ValueError
  else if negb (localtime_ok (local - 86400)) then Raise OSError
  else if negb (year_ok (local - 86400)) then Raise ValueError
  else Return {| year := y; month := m; day := d;
                 hour := sod / 3600; minute := (sod mod 3600) / 60;
                 second := sod mod 60 |}.

Definition digit (d : Z) : ascii := ascii_of_nat (48 + Z.to_nat d).

(** The decimal numeral of a non-negative integer, most significant
    digit first.  [fuel] bounds the number of digits. *)
Fixpoint decimal_aux (fuel : nat) (n : Z) (acc : string) : string :=
  match fuel with
  | O => acc
  | S fuel' =>
      let acc' := String (digit (n mod 10)) acc in
      if n / 10 =? 0 then acc' else decimal_aux fuel' (n / 10) acc'
  end.

Definition decimal (n : Z) : string :=
  decimal_aux (S (Z.to_nat (Z.log2 n))) n EmptyString.

Fixpoint zeros (k : nat) : string :=
  match k with
  | O => EmptyString
  | S k' => String "0" (zeros k')
  end.

(** A field printed zero-padded to [width] characters. *)
Definition zpad (width : nat) (n : Z) : string :=
  let s := decimal n in
  zeros (width - String.length s) ++ s.

(** One conversion of a format.  The C library prints the year as it
    is, without padding: a year below 1000 takes fewer than four
    characters. *)
Definition directive (dt : datetime) (c : ascii) : string :=
  if Ascii.eqb c "H" then zpad 2 (hour dt)
  else if Ascii.eqb c "M" then zpad 2 (minute dt)
  else if Ascii.eqb c "S" then zpad 2 (second dt)
  else if Ascii.eqb c "Y" then decimal (year dt)
  else if Ascii.eqb c "m" then zpad 2 (month dt)
  else if Ascii.eqb c "d" then zpad 2 (day dt)
  else if Ascii.eqb c "%" then "%"
  else String "%" (String c EmptyString).

(** [dt.strftime(format)]: a percent sign starts a conversion, every
    other character is copied. *)
Fixpoint strftime (dt : datetime) (format : string) : string :=
  match format with
  | EmptyString => EmptyString
  | String a rest =>
      if Ascii.eqb a "%" then
        match rest with
        | EmptyString => String a EmptyString
        | String c rest' => directive dt c ++ strftime dt rest'
        end
      else String a (strftime dt rest)
  end.

End DateTime.

(** ** The client *)

Module GraphiteClient.

Record t : Type := { url : string }.

(** [s.rstrip(c)] for a one-character [c]. *)
Fixpoint rstrip (c : ascii) (s : string) : string :=
  match s with
  | EmptyString => EmptyString
  | String a s' =>
      match rstrip c s' with
      | EmptyString => if Ascii.eqb a c then EmptyString
                       else String a EmptyString
      | kept => String a kept
      end
  end.

(** [__init__]: the [requests.Session] it also creates is the transport
    that [request] is given below. *)
Definition init (api_url : string) : t := {| url := rstrip "/" api_url |}.

(** The HTTP verbs [request] is documented for. *)
Inductive http_method : Type := Get | Put | Post.

Definition headers : list (string * string) :=
  [("Accept", "application/json");
   ("Content-Type", "application/json");
   ("User-Agent", "slo-generator")].

(** ["&".join("%s=%s" % (k, v) for k, v in params.items()
            if v is not None)] *)
Definition params_str (params : list (string * option string)) : string :=
  String.concat "&"
    (flat_map (fun kv => match snd kv with
                         | Some v => [fst kv ++ "=" ++ v]
                         | None => []
                         end) params).

(** The URL that [request] ends up with. *)
Definition request_url (self : t) (endpoint metric : string)
    (params : list (string * option string)) : string :=
  let url := url self ++ "/" ++ endpoint ++ "=" ++ metric in
  url ++ "&" ++ params_str params.

Section Transport.

(** [session_get url headers] is the outcome of
    [self.client.get(url, headers=headers, verify=False)] followed by
    [response.json()]: the decoded body, or the exception of the
    transport or of the decoder. *)
Variable session_get : string -> list (string * string) -> result pyval.

(** [request]: for [put] and [post] the call reads the name [post_data],
    which nothing defines. *)
Definition request (self : t) (method : http_method)
    (endpoint metric : string) (params : list (string * option string))
    : result pyval :=
  let url := request_url self endpoint metric params in
  match method with
  | Put | Post => Raise NameError
  | Get => session_get url headers
  end.

End Transport.
End GraphiteClient.

(** ** The SLO configuration

    [slo_config['backend']['measurement']] with its keys [metric],
    [threshold] and the optional [good_below_threshold]. *)

Module SLOConfig.

Record measurement : Type := {
  metric : string;
  threshold : num;
  good_below_threshold : option bool
}.

Record backend : Type := { backend_measurement : measurement }.

Record t : Type := { slo_backend : backend }.

End SLOConfig.

(** ** The backend: counting routines

    [NO_DATA] is imported from [slo_generator.constants], which is not
    part of this file's source; it is taken as a parameter. *)

Module GraphiteBackend.
Section Counting.

Variable NO_DATA : pyval.

(** The comprehension of [count]:
    [[point for point in values if point is not None and point > 0]].
    The kept items are numbers; they are collected as such. *)
Fixpoint point_values (values : list pyval) : result (list number) :=
  match values with
  | [] => Return []
  | point :: rest =>
      if is_none point then point_values rest
      else
        positive <- py_gt point (NInt 0) ;;
        kept <- point_values rest ;;
        match as_number point with
        | Some x => Return (if positive then x :: kept else kept)
        | None => Raise TypeError
        end
  end.

(** The loop [for point in datapoints: ... values.extend(point_values)]. *)
Fixpoint count_loop (datapoints : list pyval) (values : list number)
    : result (list number) :=
  match datapoints with
  | [] => Return values
  | point :: rest =>
      vs <- py_getitem_str point "values" ;;
      items <- py_iter vs ;;
      pv <- point_values items ;;
      count_loop rest (values ++ pv)
  end.

Section Sum.

(** [sum(values)] adds the items from the left, starting from the int 0.
    While only ints have been met the sum is an int and exact.  From the
    first float on the sum is a float: an int that takes part, be it the
    sum so far or a later item, is first converted to a float, and the
    conversion raises [OverflowError] for an int that rounds to 2^1024 or
    beyond.  Nothing else can fail.  The float the additions arrive at,
    which depends on their rounding, is a parameter: [float_sum acc items]
    for the int [acc] reached before the first float and the items from
    that float on. *)
Variable float_sum : Z -> list number -> float_value.

(** The least magnitude an int cannot be converted at: halfway between
    the largest float and 2^1024, which rounds up. *)
Definition float_limit : Z := 2 ^ 1024 - 2 ^ 970.

Definition too_large (z : Z) : bool := float_limit <=? Z.abs z.

Definition has_too_large (items : list number) : bool :=
  existsb (fun x => match x with
                    | NumInt z => too_large z
                    | NumFloat _ => false
                    end) items.

Fixpoint sum_from (acc : Z) (items : list number) : result pyval :=
  match items with
  | [] => Return (VInt acc)
  | NumInt z :: rest => sum_from (acc + z) rest
  | NumFloat f :: rest =>
      if too_large acc || has_too_large rest then Raise OverflowError
      else Return (VFloat (float_sum acc items))
  end.

Definition py_sum (items : list number) : result pyval := sum_from 0 items.

(** The body of the [try] in [count]. *)
Definition count_try (response : pyval) : result pyval :=
  result_ <- py_getitem_str response "result" ;;
  first <- py_getitem_int result_ 0 ;;
  data <- py_getitem_str first "data" ;;
  datapoints <- py_iter data ;;
  values <- count_loop datapoints [] ;;
  py_sum values.

Definition count (response : pyval) : result pyval :=
  try_except (count_try response) [IndexError; KeyError]
             (fun _ => Return NO_DATA).

End Sum.

(** The loop [for point in datapoints] of [count_threshold], with the two
    lists it appends to. *)
Fixpoint threshold_loop (datapoints : list pyval) (threshold : num)
    (below above : list pyval) : result (list pyval * list pyval) :=
  match datapoints with
  | [] => Return (below, above)
  | point :: rest =>
      value <- py_getitem_int point 0 ;;
      if is_none value then threshold_loop rest threshold below above
      else
        le <- py_le value threshold ;;
        if le then threshold_loop rest threshold (below ++ [value]) above
        else threshold_loop rest threshold below (above ++ [value])
  end.

(** The loop [while (target < x)].  [target] goes up by one each round, so
    the loop runs [x - target] more rounds; [rounds] is that number.  The
    local names [below] and [above] are bound by the first round and
    rebound by every later one; [buckets] is [None] while they are
    unbound. *)
Fixpoint series_loop (response : pyval) (threshold : num) (rounds : nat)
    (target : nat) (buckets : option (list pyval * list pyval))
    : result (option (list pyval * list pyval)) :=
  match rounds with
  | O => Return buckets
  | S rounds' =>
      series <- py_getitem_int response target ;;
      datapoints <- py_getitem_str series "datapoints" ;;
      points <- py_iter datapoints ;;
      b <- threshold_loop points threshold [] [] ;;
      series_loop response threshold rounds' (S target) (Some b)
  end.

Definition py_len_list (l : list pyval) : pyval := VInt (Z.of_nat (List.length l)).

(** The body of the [try] in [count_threshold].  The calls to
    [LOGGER.debug] read only what the next statement reads again and are
    left out; so is the pretty-printing of their arguments, which the
    interpreter cannot carry out on a document nested deeper than its
    recursion limit allows.  Such documents are outside the embedding. *)
Definition count_threshold_try (response : pyval) (threshold : num)
    (good_below_threshold : bool) : result (pyval * pyval) :=
  x <- py_len response ;;
  buckets <- series_loop response threshold x 0%nat None ;;
  match buckets with
  | None => Raise UnboundLocalError
  | Some (below, above) =>
      if good_below_threshold
      then Return (py_len_list below, py_len_list above)
      else Return (py_len_list above, py_len_list below)
  end.

Definition count_threshold (response : pyval) (threshold : num)
    (good_below_threshold : bool) : result (pyval * pyval) :=
  try_except (count_threshold_try response threshold good_below_threshold)
             [IndexError; KeyError; ZeroDivisionError]
             (fun _ => Return (NO_DATA, NO_DATA)).

Record t : Type := { client : GraphiteClient.t }.

(** [__init__(client=None, api_url=None)] *)
Definition init (client : option GraphiteClient.t) (api_url : string) : t :=
  match client with
  | Some c => {| client := c |}
  | None => {| client := GraphiteClient.init api_url |}
  end.

Section Query.

Variable utcoffset : Z -> Z.
Variable session_get : string -> list (string * string) -> result pyval.

(** The [params] dict of [query], in insertion order. *)
Definition query_params (start end_ : Z)
    : result (list (string * option string)) :=
  from_dt <- DateTime.fromtimestamp utcoffset start ;;
  until_dt <- DateTime.fromtimestamp utcoffset end_ ;;
  Return [("from", Some (DateTime.strftime from_dt "%H:%M_%Y%m%d"));
          ("until", Some (DateTime.strftime until_dt "%H:%M_%Y%m%d"));
          ("format", Some "json")].

Definition query (self : t) (start end_ : Z) (metric : string)
    : result pyval :=
  params <- query_params start end_ ;;
  GraphiteClient.request session_get (client self) GraphiteClient.Get
                         "render?target" metric params.

(** [threshold].  The call to [LOGGER.debug] between the query and the
    counting is left out, with the pretty-printing of the response, as in
    [count_threshold_try]. *)
Definition threshold (self : t) (timestamp window : Z)
    (slo_config : SLOConfig.t) : result (pyval * pyval) :=
  let conf := SLOConfig.slo_backend slo_config in
  let measurement := SLOConfig.backend_measurement conf in
  let start := timestamp - window in
  let end_ := timestamp in
  let metric := SLOConfig.metric measurement in
  let threshold := SLOConfig.threshold measurement in
  let good_below_threshold :=
    match SLOConfig.good_below_threshold measurement with
    | Some b => b
    | None => true
    end in
  response <- query self start end_ metric ;;
  count_threshold response threshold good_below_threshold.

End Query.

End Counting.
End GraphiteBackend.


(** ** Well-formed documents

    What the two counting routines expect to read, as typed data with
    the JSON each stands for. *)

Module Response.

(** One series of a render response: [{"target": ..., "datapoints":
    [[value, timestamp], ...]}], a value being a number or null. *)
Record series : Type := {
  target : string;
  datapoints : list (option num * Z)
}.

Definition encode_value (v : option num) : pyval :=
  match v with
  | Some n => of_num n
  | None => VNone
  end.

Definition encode_point (p : option num * Z) : pyval :=
  VList [encode_value (fst p); VInt (snd p)].

Definition encode_series (s : series) : pyval :=
  VDict [("target", VStr (target s));
         ("datapoints", VList (map encode_point (datapoints s)))].

Definition encode (response : list series) : pyval :=
  VList (map encode_series response).

(** The non-null values of a list of samples, in order. *)
Fixpoint present (points : list (option num * Z)) : list num :=
  match points with
  | [] => []
  | (Some n, _) :: rest => n :: present rest
  | (None, _) :: rest => present rest
  end.

Definition count_below (t : num) (points : list (option num * Z)) : nat :=
  List.length (filter (fun n => num_le n t) (present points)).

Definition count_above (t : num) (points : list (option num * Z)) : nat :=
  List.length (filter (fun n => negb (num_le n t)) (present points)).

(** The document [count] reads: [{"result": [{"data": [{"values":
    [...]}, ...]}, ...]}].  A series is the list of its data points, a
    data point the list of its values. *)
Definition count_series : Type := list (list (option num)).

Definition encode_data_point (values : list (option num)) : pyval :=
  VDict [("values", VList (map encode_value values))].

Definition encode_count_series (s : count_series) : pyval :=
  VDict [("data", VList (map encode_data_point s))].

Definition encode_count (response : list count_series) : pyval :=
  VDict [("result", VList (map encode_count_series response))].

(** The values of a series that are present and strictly positive. *)
Fixpoint positives (values : list (option num)) : list num :=
  match values with
  | [] => []
  | Some n :: rest =>
      if num_lt (NInt 0) n then n :: positives rest else positives rest
  | None :: rest => positives rest
  end.

(** The sum of the present, strictly positive entries of a list of
    integer samples. *)
Fixpoint positive_sum (values : list (option Z)) : Z :=
  match values with
  | [] => 0
  | Some z :: rest => if 0 <? z then z + positive_sum rest
                      else positive_sum rest
  | None :: rest => positive_sum rest
  end.

Definition int_value (v : option Z) : option num := option_map NInt v.

(** Whether the numbers of a list are all ints, and the sum of its
    ints. *)
Definition all_int (l : list num) : bool :=
  forallb (fun n => match n with NInt _ => true | NFloat _ => false end) l.

Definition int_sum (l : list num) : Z :=
  fold_left (fun acc n => match n with NInt z => acc + z | NFloat _ => acc end)
            l 0.

End Response.

(** ** Reading the loops as folds

    The values [point[0]] of the samples of one series, and the buckets
    one round of the [while] loop computes from a series. *)

Module Loops.
Import GraphiteBackend.

Fixpoint point_firsts (points : list pyval) : result (list pyval) :=
  match points with
  | [] => Return []
  | point :: rest =>
      value <- py_getitem_int point 0 ;;
      values <- point_firsts rest ;;
      Return (value :: values)
  end.

Definition series_values (series : pyval) : result (list pyval) :=
  datapoints <- py_getitem_str series "datapoints" ;;
  points <- py_iter datapoints ;;
  point_firsts points.

Definition not_none (values : list pyval) : list pyval :=
  filter (fun v => negb (is_none v)) values.

Definition series_buckets (t : num) (series : pyval)
    : result (list pyval * list pyval) :=
  datapoints <- py_getitem_str series "datapoints" ;;
  points <- py_iter datapoints ;;
  threshold_loop points t [] [].

Fixpoint series_fold (t : num) (l : list pyval)
    (buckets : option (list pyval * list pyval))
    : result (option (list pyval * list pyval)) :=
  match l with
  | [] => Return buckets
  | series :: rest =>
      b <- series_buckets t series ;;
      series_fold t rest (Some b)
  end.

End Loops.

(** ** String tests used by the statements on the request *)

Module Text.

Definition is_digit (c : ascii) : bool :=
  (48 <=? nat_of_ascii c)%nat && (nat_of_ascii c <=? 57)%nat.

(** The pattern [HH:MM_YYYYMMDD]. *)
Definition matches_HHMM_YYYYMMDD (s : string) : bool :=
  match list_ascii_of_string s with
  | [h1; h2; c; m1; m2; u; y1; y2; y3; y4; o1; o2; d1; d2] =>
      is_digit h1 && is_digit h2 && Ascii.eqb c ":"
      && is_digit m1 && is_digit m2 && Ascii.eqb u "_"
      && is_digit y1 && is_digit y2 && is_digit y3 && is_digit y4
      && is_digit o1 && is_digit o2 && is_digit d1 && is_digit d2
  | _ => false
  end.

(** [sub in s] *)
Fixpoint contains (sub s : string) : bool :=
  String.prefix sub s ||
  match s with
  | EmptyString => false
  | String _ s' => contains sub s'
  end.

Fixpoint no_slash (s : string) : bool :=
  match s with
  | EmptyString => true
  | String c s' => negb (Ascii.eqb c "/") && no_slash s'
  end.

(** The local instants whose year has four digits: from
    1000-01-01T00:00:00 to 9999-12-31T23:59:59. *)
Definition four_digit_year (local : Z) : Prop :=
  -30610224000 <= local < 253402300800.

End Text.

(** ** Parameters for concrete runs

    The sentinel taken as -1, the local time as UTC, the float sum as the
    exact one, and a transport that answers with no series. *)

Module Samples.

Definition no_data : pyval := VInt (-1).
Definition utc : Z -> Z := fun _ => 0.
Definition exact_sum : Z -> list number -> float_value :=
  fun acc items =>
    Real (fold_left
            (fun q x => match x with
                        | NumInt z => (q + inject_Z z)%Q
                        | NumFloat (Real r) => (q + r)%Q
                        | NumFloat _ => q
                        end) items (inject_Z acc)).
Definition no_series : string -> list (string * string) -> result pyval :=
  fun _ _ => Return (VList []).

End Samples.

(** ** Notions for the further properties *)

Module Shapes.

(** A result pair with its two components exchanged. *)
Definition swap_result (r : result (pyval * pyval)) : result (pyval * pyval) :=
  match r with
  | Return (a, b) => Return (b, a)
  | Raise e => Raise e
  end.

(** The exceptions a failed subscript, iteration or comparison raises. *)
Definition lookup_exn (e : exn) : Prop :=
  e = IndexError \/ e = KeyError \/ e = TypeError.

(** The present entries of a list of optional values. *)
Fixpoint somes (l : list (option num)) : list num :=
  match l with
  | [] => []
  | Some n :: rest => n :: somes rest
  | None :: rest => somes rest
  end.

(** [k] slashes. *)
Fixpoint slashes (k : nat) : string :=
  match k with
  | O => EmptyString
  | S k' => String "/" (slashes k')
  end.

(** Whether the last character of a string is a slash. *)
Fixpoint ends_with_slash (s : string) : bool :=
  match s with
  | EmptyString => false
  | String a EmptyString => Ascii.eqb a "/"
  | String _ s' => ends_with_slash s'
  end.

(** The local instants from 10000-01-01T00:00:00 up to 10^15 seconds,
    some 31 million years on: the instants past the last year a date can
    hold that the C library still converts.  Every date from 12 January
    1978 to the end of the year 9999 falls here when its instant is given
    in milliseconds. *)
Definition beyond_max_year (local : Z) : Prop :=
  253402300800 <= local < 10 ^ 15.

(** No present sample is strictly positive. *)
Definition none_positive (values : list (option Z)) : Prop :=
  Forall (fun o => match o with Some z => z <= 0 | None => True end) values.

(** Transports for concrete runs: one whose every request fails, one
    that answers every request with the same document. *)
Definition failing (e : exn)
    : string -> list (string * string) -> result pyval :=
  fun _ _ => Raise e.

Definition answering (document : pyval)
    : string -> list (string * string) -> result pyval :=
  fun _ _ => Return document.

End Shapes.

(** ** Properties of [count_threshold] *)

Module ThresholdProofs.
Import GraphiteBackend Response Loops.
Local Open Scope list_scope.

Lemma as_number_of_num (n : num) :
  as_number (of_num n) = Some (number_of_num n).
Proof. destruct n; reflexivity. Qed.

Lemma number_le_of_num (n t : num) :
  number_le (number_of_num n) t = num_le n t.
Proof. destruct n; reflexivity. Qed.

Lemma number_gt_of_num (n t : num) :
  number_gt (number_of_num n) t = num_lt t n.
Proof. destruct n; reflexivity. Qed.

Lemma is_none_of_num (n : num) : is_none (of_num n) = false.
Proof. destruct n; reflexivity. Qed.

Lemma py_le_of_num (n t : num) : py_le (of_num n) t = Return (num_le n t).
Proof. unfold py_le. now rewrite as_number_of_num, number_le_of_num. Qed.

(** One round of the inner loop on a present sample and on a null one. *)
Lemma threshold_loop_present (n : num) (ts : Z) rest t below above :
  threshold_loop (encode_point (Some n, ts) :: rest) t below above =
  if num_le n t
  then threshold_loop rest t (below ++ [of_num n]) above
  else threshold_loop rest t below (above ++ [of_num n]).
Proof.
  cbn [threshold_loop encode_point encode_value fst snd py_getitem_int
       nth_error bind].
  rewrite is_none_of_num, py_le_of_num. reflexivity.
Qed.

Lemma threshold_loop_null (ts : Z) rest t below above :
  threshold_loop (encode_point (None, ts) :: rest) t below above =
  threshold_loop rest t below above.
Proof. reflexivity. Qed.

(** The inner loop on well-formed samples sorts the present values into
    the two lists and never raises. *)
Lemma threshold_loop_encode points : forall t below above,
  threshold_loop (map encode_point points) t below above =
  Return (below ++ map of_num (filter (fun n => num_le n t) (present points)),
          above ++ map of_num
            (filter (fun n => negb (num_le n t)) (present points))).
Proof.
  induction points as [|[[n|] ts] points IH]; intros t below above.
  - cbn. now rewrite !app_nil_r.
  - change (map encode_point ((Some n, ts) :: points))
      with (encode_point (Some n, ts) :: map encode_point points).
    rewrite threshold_loop_present. cbn [present filter].
    destruct (num_le n t); cbn [negb map]; rewrite IH;
      now rewrite <- ?app_assoc.
  - change (map encode_point ((None, ts) :: points))
      with (encode_point (None, ts) :: map encode_point points).
    rewrite threshold_loop_null. apply IH.
Qed.

Lemma series_buckets_encode t s :
  series_buckets t (encode_series s) =
  Return (map of_num (filter (fun n => num_le n t) (present (datapoints s))),
          map of_num
            (filter (fun n => negb (num_le n t)) (present (datapoints s)))).
Proof.
  unfold series_buckets, encode_series. cbn.
  now rewrite threshold_loop_encode.
Qed.

(** The [while] loop visits the series from index [target] on, in order. *)
Lemma series_loop_fold t l : forall front buckets,
  series_loop (VList (front ++ l)) t (List.length l) (List.length front)
              buckets =
  series_fold t l buckets.
Proof.
  induction l as [|s l IH]; intros front buckets.
  - reflexivity.
  - cbn [List.length series_loop series_fold py_getitem_int].
    rewrite nth_error_app2 by lia. rewrite Nat.sub_diag. cbn [nth_error bind].
    unfold series_buckets.
    destruct (py_getitem_str s "datapoints") as [d|e]; cbn [bind];
      [|reflexivity].
    destruct (py_iter d) as [points|e]; cbn [bind]; [|reflexivity].
    destruct (threshold_loop points t [] []) as [b|e]; cbn [bind];
      [|reflexivity].
    specialize (IH (front ++ [s]) (Some b)).
    rewrite <- app_assoc, length_app in IH. cbn [List.length app] in IH.
    rewrite Nat.add_1_r in IH. exact IH.
Qed.

Lemma series_fold_app t l1 : forall l2 buckets,
  series_fold t (l1 ++ l2) buckets =
  (b <- series_fold t l1 buckets ;; series_fold t l2 b).
Proof.
  induction l1 as [|s l1 IH]; intros l2 buckets; cbn [app series_fold bind].
  - reflexivity.
  - destruct (series_buckets t s); cbn [bind]; [apply IH | reflexivity].
Qed.

Lemma series_fold_encode t ss : forall buckets,
  exists b, series_fold t (map encode_series ss) buckets = Return b.
Proof.
  induction ss as [|s ss IH]; intros buckets; cbn [map series_fold].
  - now exists buckets.
  - rewrite series_buckets_encode. cbn [bind]. apply IH.
Qed.

Lemma count_threshold_try_fold l t g :
  count_threshold_try (VList l) t g =
  (buckets <- series_fold t l None ;;
   match buckets with
   | None => Raise UnboundLocalError
   | Some (below, above) =>
       if g then Return (py_len_list below, py_len_list above)
       else Return (py_len_list above, py_len_list below)
   end).
Proof.
  unfold count_threshold_try. cbn [py_len bind].
  pose proof (series_loop_fold t l [] None) as H. cbn [app List.length] in H.
  now rewrite H.
Qed.

(** On a well-formed response with at least one series the counts are
    those of the last series. *)
Lemma count_threshold_try_last ss s t g :
  count_threshold_try (encode (ss ++ [s])) t g =
  Return (if g
          then (VInt (Z.of_nat (count_below t (datapoints s))),
                VInt (Z.of_nat (count_above t (datapoints s))))
          else (VInt (Z.of_nat (count_above t (datapoints s))),
                VInt (Z.of_nat (count_below t (datapoints s))))).
Proof.
  unfold encode. rewrite count_threshold_try_fold, map_app, series_fold_app.
  destruct (series_fold_encode t ss None) as [b ->].
  cbn [bind map series_fold]. rewrite series_buckets_encode. cbn [bind].
  unfold py_len_list, count_below, count_above. rewrite !length_map.
  now destruct g.
Qed.

(** A normal end of the inner loop has read [point[0]] of every sample
    and has put each value that is not [None] into exactly one list. *)
Lemma threshold_loop_counts points : forall t below above b a,
  threshold_loop points t below above = Return (b, a) ->
  exists values,
    point_firsts points = Return values /\
    (List.length b + List.length a =
     List.length below + List.length above + List.length (not_none values))%nat.
Proof.
  induction points as [|p points IH]; intros t below above b a H.
  - injection H as <- <-. exists []. split; [reflexivity | cbn; lia].
  - cbn [threshold_loop point_firsts] in *.
    destruct (py_getitem_int p 0) as [v|e]; cbn [bind] in *; [|discriminate].
    destruct (is_none v) eqn:Hv.
    + apply IH in H as (values & -> & Hlen). exists (v :: values).
      split; [reflexivity|]. unfold not_none in *. cbn [filter].
      now rewrite Hv.
    + destruct (py_le v t) as [[|]|e]; cbn [bind] in H; [| |discriminate];
        apply IH in H as (values & -> & Hlen); exists (v :: values);
        (split; [reflexivity|]); unfold not_none in *; cbn [filter];
        rewrite Hv; cbn [negb List.length];
        rewrite length_app in Hlen; cbn [List.length] in Hlen; lia.
Qed.

Lemma series_fold_return t l : forall buckets b,
  series_fold t l buckets = Return (Some b) ->
  (l = [] /\ buckets = Some b) \/
  (exists front s, l = front ++ [s] /\ series_buckets t s = Return b).
Proof.
  induction l as [|s l IH]; intros buckets b H; cbn [series_fold] in H.
  - left. split; [reflexivity | congruence].
  - right. destruct (series_buckets t s) as [b0|e] eqn:Hs; cbn [bind] in H;
      [|discriminate].
    apply IH in H as [[-> Hb] | (front & s' & -> & Hs')].
    + exists [], s. split; [reflexivity | congruence].
    + exists (s :: front), s'. split; [reflexivity | assumption].
Qed.

(** The body returns normally only on a non-empty list. *)
Lemma count_threshold_try_return response t g good bad :
  count_threshold_try response t g = Return (good, bad) ->
  exists l, response = VList l.
Proof.
  destruct response as [| | | |s|l|d]; try discriminate.
  - destruct s; discriminate.
  - now exists l.
  - destruct d; discriminate.
Qed.

Lemma present_all_null points :
  Forall (fun p : option num * Z => fst p = None) points ->
  present points = [].
Proof.
  induction 1 as [|[v ts] points Hv _ IH]; [reflexivity|].
  cbn in Hv. subst v. exact IH.
Qed.

Lemma present_app l1 l2 : present (l1 ++ l2) = present l1 ++ present l2.
Proof.
  induction l1 as [|[[n|] ts] l1 IH]; cbn [app present]; now rewrite ?IH.
Qed.

Lemma num_eq_le n t : num_eq n t = true -> num_le n t = true.
Proof.
  unfold num_eq, num_le. intros H. apply Qeq_bool_iff in H.
  apply Qle_bool_iff. rewrite H. apply Qle_refl.
Qed.

(** A normal end of the body: the response is a non-empty list, and the
    two results are the sizes of the two lists the last round filled. *)
Lemma count_threshold_try_counts response t g good bad :
  count_threshold_try response t g = Return (good, bad) ->
  exists front s values zg zb,
    response = VList (front ++ [s]) /\
    series_values s = Return values /\
    good = VInt zg /\ bad = VInt zb /\ 0 <= zg /\ 0 <= zb /\
    zg + zb = Z.of_nat (List.length (not_none values)).
Proof.
  intros H.
  destruct (count_threshold_try_return _ _ _ _ _ H) as [l ->].
  rewrite count_threshold_try_fold in H.
  destruct (series_fold t l None) as [[[below above]|]|e] eqn:Hfold;
    cbn [bind] in H; try discriminate.
  apply series_fold_return in Hfold
    as [[_ Hb] | (front & s & -> & Hs)]; [discriminate|].
  exists front, s. unfold series_buckets in Hs. unfold series_values.
  destruct (py_getitem_str s "datapoints") as [d|e]; cbn [bind] in *;
    [|discriminate].
  destruct (py_iter d) as [points|e]; cbn [bind] in *; [|discriminate].
  apply threshold_loop_counts in Hs as (values & Hv & Hlen).
  cbn [List.length] in Hlen. unfold py_len_list in H.
  exists values.
  destruct g; injection H as <- <-.
  - exists (Z.of_nat (List.length below)), (Z.of_nat (List.length above)).
    repeat split; try assumption; try reflexivity; lia.
  - exists (Z.of_nat (List.length above)), (Z.of_nat (List.length below)).
    repeat split; try assumption; try reflexivity; lia.
Qed.

Lemma filter_split_length {A} (p : A -> bool) l :
  (List.length (filter p l) + List.length (filter (fun x => negb (p x)) l)
   = List.length l)%nat.
Proof.
  induction l as [|x l IH]; cbn [filter List.length]; [reflexivity|].
  destruct (p x); cbn [negb List.length]; lia.
Qed.

Section WithNoData.
Variable NO_DATA : pyval.

Lemma count_threshold_last ss s t g :
  count_threshold NO_DATA (encode (ss ++ [s])) t g =
  Return (if g
          then (VInt (Z.of_nat (count_below t (datapoints s))),
                VInt (Z.of_nat (count_above t (datapoints s))))
          else (VInt (Z.of_nat (count_above t (datapoints s))),
                VInt (Z.of_nat (count_below t (datapoints s))))).
Proof.
  unfold count_threshold. now rewrite count_threshold_try_last.
Qed.

(** What the handler does with the body's outcome. *)
Lemma count_threshold_caught response t g e :
  count_threshold_try response t g = Raise e ->
  e = IndexError \/ e = KeyError \/ e = ZeroDivisionError ->
  count_threshold NO_DATA response t g = Return (NO_DATA, NO_DATA).
Proof.
  unfold count_threshold. intros -> [->|[->| ->]]; reflexivity.
Qed.

(** C1 (the code departs from it).  A response with no series is to
    give the pair [(NO_DATA, NO_DATA)].  On the empty list, and on the
    empty object, the loop never binds [below] and [above]; reading them
    raises [UnboundLocalError], which the handler does not list, so the
    caller gets the exception whatever the threshold and the flag. *)
Theorem count_threshold_empty_raises : forall t g,
  count_threshold NO_DATA (encode []) t g = Raise UnboundLocalError /\
  count_threshold NO_DATA (VDict []) t g = Raise UnboundLocalError.
Proof. intros t g. split; reflexivity. Qed.

(** C2 (the code departs from it).  The counts are to cover every series.
    With two series holding the samples 10 and 60 and threshold 50, one
    value lies below and one above over the whole response, yet the
    function returns good 0 and bad 1: the two lists are emptied at the
    start of every round, so only the last series is counted. *)
Theorem count_threshold_two_series :
  let response :=
    [ {| target := "a"; datapoints := [(Some (NInt 10), 1)] |};
      {| target := "b"; datapoints := [(Some (NInt 60), 2)] |} ] in
  count_threshold NO_DATA (encode response) (NInt 50) true
    = Return (VInt 0, VInt 1) /\
  count_below (NInt 50) (List.concat (map datapoints response)) = 1%nat /\
  count_above (NInt 50) (List.concat (map datapoints response)) = 1%nat.
Proof. repeat split. Qed.

(** X1.  Within the last series of a well-formed response a present
    value equal to the threshold goes to the [below] list, so with the
    flag set it adds one to the good count and nothing to the bad count;
    a null value goes to neither list and leaves both counts as they
    are. *)
Theorem threshold_equal_is_below :
  (forall n ts rest t below above,
      num_eq n t = true ->
      threshold_loop (encode_point (Some n, ts) :: rest) t below above =
      threshold_loop rest t (below ++ [of_num n]) above) /\
  (forall ts rest t below above,
      threshold_loop (encode_point (None, ts) :: rest) t below above =
      threshold_loop rest t below above) /\
  (forall ss name pre post n ts t,
      num_eq n t = true ->
      count_threshold NO_DATA
        (encode (ss ++ [ {| target := name;
                            datapoints := pre ++ (Some n, ts) :: post |} ]))
        t true =
      Return (VInt (Z.of_nat (S (count_below t (pre ++ post)))),
              VInt (Z.of_nat (count_above t (pre ++ post))))) /\
  (forall ss name pre post ts t g,
      count_threshold NO_DATA
        (encode (ss ++ [ {| target := name;
                            datapoints := pre ++ (None, ts) :: post |} ]))
        t g =
      count_threshold NO_DATA
        (encode (ss ++ [ {| target := name; datapoints := pre ++ post |} ]))
        t g).
Proof.
  split; [|split; [|split]].
  - intros n ts rest t below above H. rewrite threshold_loop_present.
    now rewrite (num_eq_le _ _ H).
  - intros. apply threshold_loop_null.
  - intros ss name pre post n ts t H. rewrite count_threshold_last.
    cbn [datapoints]. unfold count_below, count_above.
    rewrite !present_app, !filter_app, !length_app. cbn [present filter].
    rewrite (num_eq_le _ _ H). cbn [negb List.length].
    do 2 f_equal; f_equal; lia.
  - intros ss name pre post ts t g. rewrite !count_threshold_last.
    cbn [datapoints]. unfold count_below, count_above.
    now rewrite !present_app.
Qed.

(** C4.  One series with the values 10, null, 60, 50 and threshold 50
    gives good 2 and bad 1 with the flag set, and good 1 and bad 2 with
    the flag cleared, whatever the name and the timestamps. *)
Theorem count_threshold_scenario : forall name t1 t2 t3 t4,
  let response :=
    encode [ {| target := name;
                datapoints := [(Some (NInt 10), t1); (None, t2);
                               (Some (NInt 60), t3); (Some (NInt 50), t4)] |} ]
  in
  count_threshold NO_DATA response (NInt 50) true = Return (VInt 2, VInt 1) /\
  count_threshold NO_DATA response (NInt 50) false = Return (VInt 1, VInt 2).
Proof. intros. split; reflexivity. Qed.

(** C3 (the code departs from it).  A present value equal to the
    threshold is to be counted as good when the flag is set.  The inner
    loop does put the value 50 of the first series into the [below] list
    against the threshold 50; the next round empties the lists, and with
    a second series that holds no sample the function returns good 0 and
    bad 0, whatever the names and the timestamp. *)
Theorem threshold_equal_in_earlier_series : forall name1 name2 ts,
  threshold_loop [encode_point (Some (NInt 50), ts)] (NInt 50) [] []
    = Return ([VInt 50], []) /\
  count_threshold NO_DATA
    (encode [ {| target := name1; datapoints := [(Some (NInt 50), ts)] |};
              {| target := name2; datapoints := [] |} ])
    (NInt 50) true = Return (VInt 0, VInt 0).
Proof. intros. split; reflexivity. Qed.

(** C10.  If the last series of a non-empty well-formed response has no
    present value, [count_threshold] returns the counts 0 and 0 by the
    normal path of its body: the handler is not entered, and the result
    is not the sentinel pair unless the sentinel is itself 0.  Whenever
    [count_threshold] returns, either its body raised an exception and the
    result is the sentinel pair, or the response is a non-empty list, the
    two results are non-negative integers, and their sum is the number of
    values that are not [None] among the samples of the last series.  On
    every non-empty well-formed response it returns two non-negative
    integers whose sum is the number of present samples of the last
    series. *)
Theorem count_threshold_counts :
  (forall ss s t g,
      Forall (fun p : option num * Z => fst p = None) (datapoints s) ->
      count_threshold_try (encode (ss ++ [s])) t g = Return (VInt 0, VInt 0) /\
      count_threshold NO_DATA (encode (ss ++ [s])) t g
        = Return (VInt 0, VInt 0) /\
      (NO_DATA <> VInt 0 ->
       count_threshold NO_DATA (encode (ss ++ [s])) t g
         <> Return (NO_DATA, NO_DATA))) /\
  (forall response t g good bad,
      count_threshold NO_DATA response t g = Return (good, bad) ->
      (good = NO_DATA /\ bad = NO_DATA /\
       exists e, count_threshold_try response t g = Raise e) \/
      (exists front s values zg zb,
          response = VList (front ++ [s]) /\
          series_values s = Return values /\
          good = VInt zg /\ bad = VInt zb /\ 0 <= zg /\ 0 <= zb /\
          zg + zb = Z.of_nat (List.length (not_none values)))) /\
  (forall ss s t g,
      exists zg zb,
        count_threshold NO_DATA (encode (ss ++ [s])) t g
          = Return (VInt zg, VInt zb) /\
        0 <= zg /\ 0 <= zb /\
        zg + zb = Z.of_nat (List.length (present (datapoints s)))).
Proof.
  split; [|split].
  - intros ss s t g Hnull. apply present_all_null in Hnull.
    assert (Htry : count_threshold_try (encode (ss ++ [s])) t g
                   = Return (VInt 0, VInt 0)).
    { rewrite count_threshold_try_last. unfold count_below, count_above.
      rewrite Hnull. now destruct g. }
    split; [exact Htry|]. unfold count_threshold. rewrite Htry.
    split; [reflexivity|]. cbn [try_except]. intros Hnd Heq.
    apply Hnd. congruence.
  - intros response t g good bad. unfold count_threshold.
    destruct (count_threshold_try response t g) as [[a b]|e] eqn:Htry;
      cbn [try_except].
    + intros [= <- <-]. right. eapply count_threshold_try_counts.
      exact Htry.
    + destruct (existsb (exn_eqb e) [IndexError; KeyError; ZeroDivisionError]);
        [|discriminate].
      intros [= <- <-]. left. repeat split. now exists e.
  - intros ss s t g. rewrite count_threshold_last.
    pose proof (filter_split_length (fun n => num_le n t)
                  (present (datapoints s))) as Hlen.
    cbn beta in Hlen. unfold count_below, count_above.
    set (b := List.length (filter (fun n => num_le n t)
                             (present (datapoints s)))) in *.
    set (a := List.length (filter (fun n => negb (num_le n t))
                             (present (datapoints s)))) in *.
    clearbody a b.
    destruct g; [exists (Z.of_nat b), (Z.of_nat a)
                | exists (Z.of_nat a), (Z.of_nat b)];
      (split; [reflexivity|]); lia.
Qed.

End WithNoData.
End ThresholdProofs.

(** ** Properties of [count] *)

Module CountProofs.
Import GraphiteBackend Response.
Local Open Scope list_scope.

Lemma py_gt_zero_of_num (n : num) :
  py_gt (of_num n) (NInt 0) = Return (num_lt (NInt 0) n).
Proof.
  unfold py_gt.
  now rewrite ThresholdProofs.as_number_of_num,
    ThresholdProofs.number_gt_of_num.
Qed.

(** The comprehension keeps the present, strictly positive values. *)
Lemma point_values_encode values :
  point_values (map encode_value values) =
  Return (map number_of_num (positives values)).
Proof.
  induction values as [|[n|] values IH]; cbn [map point_values positives].
  - reflexivity.
  - cbn [encode_value]. rewrite ThresholdProofs.is_none_of_num.
    rewrite py_gt_zero_of_num, IH. cbn [bind].
    rewrite ThresholdProofs.as_number_of_num.
    now destruct (num_lt (NInt 0) n).
  - exact IH.
Qed.

Lemma positives_app l1 l2 :
  positives (l1 ++ l2) = positives l1 ++ positives l2.
Proof.
  induction l1 as [|[n|] l1 IH]; cbn [app positives]; [reflexivity| |exact IH].
  destruct (num_lt (NInt 0) n); cbn [app]; now rewrite IH.
Qed.

Lemma count_loop_encode points : forall values,
  count_loop (map encode_data_point points) values =
  Return (values ++ map number_of_num (positives (List.concat points))).
Proof.
  induction points as [|p points IH]; intros values.
  - cbn. now rewrite app_nil_r.
  - cbn [map count_loop]. unfold encode_data_point at 1. cbn.
    rewrite point_values_encode. cbn [bind]. rewrite IH.
    now rewrite positives_app, map_app, app_assoc.
Qed.

Lemma fold_int_sum l : forall acc,
  fold_left (fun acc n => match n with NInt z => acc + z | NFloat _ => acc end)
            l acc = acc + int_sum l.
Proof.
  unfold int_sum.
  induction l as [|[z|q] l IH]; intros acc; cbn [fold_left].
  - lia.
  - rewrite IH, (IH (0 + z)). lia.
  - apply IH.
Qed.

Lemma num_lt_zero_int z : num_lt (NInt 0) (NInt z) = (0 <? z).
Proof.
  unfold num_lt, Qle_bool. cbn. rewrite Z.mul_1_r.
  rewrite Z.ltb_antisym. reflexivity.
Qed.

Lemma int_sum_cons z l : int_sum (NInt z :: l) = z + int_sum l.
Proof.
  unfold int_sum at 1. cbn [fold_left]. rewrite fold_int_sum. lia.
Qed.

(** While only ints are met the interpreter's sum is the integer sum. *)
Lemma sum_from_ints float_sum l : forall acc,
  all_int l = true ->
  sum_from float_sum acc (map number_of_num l) =
  Return (VInt (acc + int_sum l)).
Proof.
  induction l as [|[z|q] l IH]; intros acc H; cbn [map number_of_num sum_from].
  - unfold int_sum. cbn. now rewrite Z.add_0_r.
  - rewrite IH by exact H. rewrite int_sum_cons. do 2 f_equal. lia.
  - discriminate.
Qed.

Lemma positives_int (values : list (option Z)) :
  all_int (positives (map int_value values)) = true /\
  int_sum (positives (map int_value values)) = positive_sum values.
Proof.
  induction values as [|[z|] values [IHa IHs]];
    cbn [map int_value option_map positives positive_sum].
  - split; reflexivity.
  - rewrite num_lt_zero_int. destruct (0 <? z).
    + split; [exact IHa|]. rewrite int_sum_cons. lia.
    + split; assumption.
  - split; assumption.
Qed.

Lemma py_sum_int float_sum (values : list (option Z)) :
  py_sum float_sum (map number_of_num (positives (map int_value values))) =
  Return (VInt (positive_sum values)).
Proof.
  unfold py_sum. destruct (positives_int values) as [Ha Hs].
  rewrite sum_from_ints by exact Ha. now rewrite Hs.
Qed.

Section WithNoData.
Variable NO_DATA : pyval.
Variable float_sum : Z -> list number -> float_value.

Lemma count_try_first first rest :
  count_try float_sum (encode_count (first :: rest)) =
  py_sum float_sum (map number_of_num (positives (List.concat first))).
Proof.
  unfold count_try, encode_count. cbn.
  now rewrite count_loop_encode.
Qed.


(** C6, as amended.  [count] returns [NO_DATA] when the response is an
    object without the key [result], when the list under [result] is
    empty, when the first series is an object without the key [data], and
    when a data point, after well-formed ones, is an object without the
    key [values]. *)
Theorem count_no_data :
  (forall d, dict_lookup "result" d = None ->
             count NO_DATA float_sum (VDict d) = Return NO_DATA) /\
  (forall d, dict_lookup "result" d = Some (VList []) ->
             count NO_DATA float_sum (VDict d) = Return NO_DATA) /\
  (forall d s rest,
      dict_lookup "result" d = Some (VList (VDict s :: rest)) ->
      dict_lookup "data" s = None ->
      count NO_DATA float_sum (VDict d) = Return NO_DATA) /\
  (forall d s rest pre p post,
      dict_lookup "result" d = Some (VList (VDict s :: rest)) ->
      dict_lookup "data" s
        = Some (VList (map encode_data_point pre ++ VDict p :: post)) ->
      dict_lookup "values" p = None ->
      count NO_DATA float_sum (VDict d) = Return NO_DATA).
Proof.
  split; [|split; [|split]].
  - intros d H. unfold count, count_try. cbn. now rewrite H.
  - intros d H. unfold count, count_try. cbn. now rewrite H.
  - intros d s rest H Hs. unfold count, count_try. cbn. rewrite H. cbn.
    now rewrite Hs.
  - intros d s rest pre p post H Hs Hp. unfold count, count_try. cbn.
    rewrite H. cbn. rewrite Hs. cbn [bind py_iter].
    assert (Hloop : forall values,
               count_loop (map encode_data_point pre ++ VDict p :: post)
                          values = Raise KeyError).
    { clear Hs. induction pre as [|x pre IH]; intros values.
      - cbn. now rewrite Hp.
      - cbn [map app count_loop]. unfold encode_data_point at 1. cbn.
        rewrite point_values_encode. cbn [bind]. apply IH. }
    now rewrite Hloop.
Qed.

End WithNoData.
End CountProofs.

(** ** Properties of the formatted dates *)

Module DateProofs.
Import DateTime Text.

Ltac Zify.zify_post_hook ::= Z.to_euclidean_division_equations.

Lemma is_digit_digit k : 0 <= k < 10 -> is_digit (digit k) = true.
Proof.
  intros H.
  assert (Hk : k = 0 \/ k = 1 \/ k = 2 \/ k = 3 \/ k = 4 \/ k = 5 \/ k = 6
               \/ k = 7 \/ k = 8 \/ k = 9) by lia.
  repeat (destruct Hk as [-> | Hk]; [reflexivity|]). now subst k.
Qed.

(** Numerals of one, two and four digits. *)
Lemma decimal_aux_1 fuel n acc :
  0 <= n < 10 -> decimal_aux (S fuel) n acc = String (digit n) acc.
Proof.
  intros H. cbn [decimal_aux].
  replace (n / 10) with 0 by lia. replace (n mod 10) with n by lia.
  reflexivity.
Qed.

Lemma decimal_aux_step fuel n acc :
  10 <= n ->
  decimal_aux (S fuel) n acc =
  decimal_aux fuel (n / 10) (String (digit (n mod 10)) acc).
Proof.
  intros H. cbn [decimal_aux].
  destruct (Z.eqb_spec (n / 10) 0) as [E|E]; [lia | reflexivity].
Qed.

Lemma log2_fuel n : 8 <= n -> exists f, Z.to_nat (Z.log2 n) = S (S (S f)).
Proof.
  intros H. pose proof (Z.log2_le_mono 8 n H) as Hl.
  change (Z.log2 8) with 3 in Hl.
  exists (Z.to_nat (Z.log2 n) - 3)%nat. lia.
Qed.

Lemma zpad_2 n :
  0 <= n < 100 ->
  zpad 2 n = String (digit (n / 10)) (String (digit (n mod 10)) EmptyString).
Proof.
  intros H. unfold zpad, decimal.
  destruct (Z.lt_ge_cases n 10) as [Hlt|Hge].
  - rewrite decimal_aux_1 by lia.
    replace (n / 10) with 0 by lia. replace (n mod 10) with n by lia.
    reflexivity.
  - destruct (log2_fuel n) as [f ->]; [lia|].
    rewrite decimal_aux_step by lia. rewrite decimal_aux_1 by lia.
    reflexivity.
Qed.

Lemma decimal_4 n :
  1000 <= n < 10000 ->
  decimal n =
  String (digit (n / 1000))
    (String (digit (n / 100 mod 10))
       (String (digit (n / 10 mod 10))
          (String (digit (n mod 10)) EmptyString))).
Proof.
  intros H. unfold decimal.
  destruct (log2_fuel n) as [f ->]; [lia|].
  rewrite decimal_aux_step by lia.
  rewrite decimal_aux_step by lia.
  rewrite decimal_aux_step by lia.
  rewrite decimal_aux_1 by lia.
  replace (n / 10 / 10 / 10) with (n / 1000) by lia.
  replace (n / 10 / 10 mod 10) with (n / 100 mod 10) by lia.
  reflexivity.
Qed.

(** The fields of the calendar date. *)
Lemma civil_month_day days :
  1 <= snd (fst (civil_from_days days)) <= 12 /\
  1 <= snd (civil_from_days days) <= 31.
Proof.
  unfold civil_from_days. cbn [fst snd].
  set (doe := (days + 719468) mod 146097).
  assert (Hdoe : 0 <= doe < 146097)
    by (subst doe; apply Z.mod_pos_bound; lia).
  clearbody doe.
  set (yoe := (doe - doe / 1460 + doe / 36524 - doe / 146096) / 365).
  assert (Hyoe : 0 <= yoe <= 399) by (subst yoe; lia).
  set (doy := doe - (365 * yoe + yoe / 4 - yoe / 100)).
  assert (Hdoy : 0 <= doy <= 365) by (subst doy yoe; lia).
  clearbody doy.
  set (mp := (5 * doy + 2) / 153).
  assert (Hmp : 0 <= mp <= 11) by (subst mp; lia).
  destruct (Z.ltb_spec mp 10); split; try lia; subst mp; lia.
Qed.

Lemma civil_year days :
  -354285 <= days < 2932897 ->
  1000 <= fst (fst (civil_from_days days)) <= 9999.
Proof.
  intros Hd. unfold civil_from_days. cbn [fst snd].
  set (z := days + 719468).
  assert (Hz : 365183 <= z < 3652365) by (subst z; lia). clearbody z.
  set (era := z / 146097).
  set (doe := z mod 146097).
  assert (Hdoe : 0 <= doe < 146097)
    by (subst doe; apply Z.mod_pos_bound; lia).
  assert (Hz' : z = 146097 * era + doe)
    by (subst era doe; apply Z.div_mod; lia).
  clearbody era doe.
  set (yoe := (doe - doe / 1460 + doe / 36524 - doe / 146096) / 365).
  assert (Hyoe : 0 <= yoe <= 399) by (subst yoe; lia).
  set (doy := doe - (365 * yoe + yoe / 4 - yoe / 100)).
  assert (Hdoy : 0 <= doy <= 365) by (subst doy yoe; lia).
  set (mp := (5 * doy + 2) / 153).
  assert (Hmp : 0 <= mp <= 11) by (subst mp; lia).
  destruct (Z.ltb_spec mp 10) as [Hlt|Hge].
  - destruct (Z.leb_spec (mp + 3) 2); [lia|]. subst mp doy yoe. lia.
  - destruct (Z.leb_spec (mp - 9) 2); [|lia]. subst mp doy yoe. lia.
Qed.

(** The days whose year [datetime] accepts. *)
Lemma civil_year_iff days :
  -719162 <= days < 2932897 <->
  1 <= fst (fst (civil_from_days days)) <= 9999.
Proof.
  unfold civil_from_days. cbn [fst snd].
  set (z := days + 719468).
  assert (Hzd : days = z - 719468) by (subst z; lia). clearbody z.
  set (era := z / 146097).
  set (doe := z mod 146097).
  assert (Hdoe : 0 <= doe < 146097)
    by (subst doe; apply Z.mod_pos_bound; lia).
  assert (Hz' : z = 146097 * era + doe)
    by (subst era doe; apply Z.div_mod; lia).
  clearbody era doe.
  set (yoe := (doe - doe / 1460 + doe / 36524 - doe / 146096) / 365).
  assert (Hyoe : 0 <= yoe <= 399) by (subst yoe; lia).
  set (doy := doe - (365 * yoe + yoe / 4 - yoe / 100)).
  assert (Hdoy : 0 <= doy <= 365) by (subst doy yoe; lia).
  set (mp := (5 * doy + 2) / 153).
  assert (Hmp : 0 <= mp <= 11) by (subst mp; lia).
  destruct (Z.ltb_spec mp 10) as [Hlt|Hge].
  - destruct (Z.leb_spec (mp + 3) 2); [lia|]. subst mp doy yoe. lia.
  - destruct (Z.leb_spec (mp - 9) 2); [|lia]. subst mp doy yoe. lia.
Qed.

Lemma year_checks local :
  1 <= year_of local <= 9999 ->
  localtime_ok local = true /\ year_ok local = true.
Proof.
  intros H. unfold localtime_ok, year_ok, MINYEAR, MAXYEAR.
  split; apply andb_true_intro; split; apply Z.leb_le; lia.
Qed.

(** Inside the four-digit years [fromtimestamp] succeeds and every field
    lies in its usual range. *)
Lemma fromtimestamp_fields utcoffset ts :
  four_digit_year (ts + utcoffset ts) ->
  exists dt,
    fromtimestamp utcoffset ts = Return dt /\
    1000 <= year dt <= 9999 /\ 1 <= month dt <= 12 /\ 1 <= day dt <= 31 /\
    0 <= hour dt < 24 /\ 0 <= minute dt < 60.
Proof.
  unfold four_digit_year, fromtimestamp. intros H.
  set (local := ts + utcoffset ts) in *. clearbody local.
  pose proof (civil_month_day (local / 86400)) as [Hm Hd].
  pose proof (civil_year (local / 86400)) as Hy.
  assert (Y1 : 1 <= year_of local <= 9999).
  { unfold year_of. assert (-354285 <= local / 86400 < 2932897) by lia.
    specialize (Hy H0). lia. }
  assert (Y2 : 1 <= year_of (local - 86400) <= 9999).
  { unfold year_of. apply civil_year_iff. lia. }
  destruct (year_checks _ Y1) as [-> ->].
  destruct (year_checks _ Y2) as [-> ->].
  destruct (civil_from_days (local / 86400)) as [[y m] d].
  cbn [fst snd negb] in *.
  assert (Hy' : 1000 <= y <= 9999) by (apply Hy; lia).
  eexists. split; [reflexivity|]. cbn [year month day hour minute].
  repeat split; try lia.
Qed.

Lemma strftime_format dt :
  strftime dt "%H:%M_%Y%m%d" =
  (zpad 2 (hour dt) ++ ":" ++ zpad 2 (minute dt) ++ "_" ++
   decimal (year dt) ++ zpad 2 (month dt) ++ zpad 2 (day dt) ++ "")%string.
Proof. reflexivity. Qed.

(** A date with fields in range prints in the pattern. *)
Lemma strftime_matches dt :
  1000 <= year dt <= 9999 -> 1 <= month dt <= 12 -> 1 <= day dt <= 31 ->
  0 <= hour dt < 24 -> 0 <= minute dt < 60 ->
  matches_HHMM_YYYYMMDD (strftime dt "%H:%M_%Y%m%d") = true.
Proof.
  intros Hy Hm Hd Hh Hmi. rewrite strftime_format.
  rewrite !zpad_2 by lia. rewrite decimal_4 by lia.
  unfold matches_HHMM_YYYYMMDD. cbn -[digit Z.div Z.modulo].
  rewrite !is_digit_digit by lia. reflexivity.
Qed.

Lemma is_digit_not_slash c : is_digit c = true -> Ascii.eqb c "/" = false.
Proof.
  destruct c as [[] [] [] [] [] [] [] []]; cbn; intros H;
    first [reflexivity | discriminate].
Qed.

Lemma matches_no_slash s :
  matches_HHMM_YYYYMMDD s = true -> no_slash s = true.
Proof.
  unfold matches_HHMM_YYYYMMDD.
  do 15 (destruct s as [|? s]; cbn [list_ascii_of_string]; try discriminate).
  intros H. do 13 (apply andb_prop in H; destruct H as [H ?]).
  cbn [no_slash].
  repeat match goal with
         | Hd : is_digit _ = true |- _ =>
             rewrite (is_digit_not_slash _ Hd); clear Hd
         | He : Ascii.eqb _ _ = true |- _ =>
             apply Ascii.eqb_eq in He; subst
         end.
  reflexivity.
Qed.

End DateProofs.

(** ** Properties of the request *)

Module RequestProofs.
Import GraphiteBackend Text DateProofs.

Lemma string_app_assoc (a b c : string) :
  ((a ++ b) ++ c = a ++ (b ++ c))%string.
Proof. induction a as [|x a IH]; cbn; [reflexivity | now rewrite IH]. Qed.

Lemma prefix_dslash_not_slash c t :
  Ascii.eqb c "/" = false -> String.prefix "//" (String c t) = false.
Proof.
  intros H. cbn [String.prefix].
  destruct (ascii_dec "/" c) as [E|E]; [|reflexivity].
  subst c. discriminate.
Qed.

(** A stretch without a slash cannot hold a double slash, nor start or
    end one. *)
Lemma contains_dslash_no_slash s t :
  no_slash s = true -> contains "//" (s ++ t) = contains "//" t.
Proof.
  induction s as [|c s IH]; intros H; [reflexivity|].
  cbn [no_slash] in H. apply andb_prop in H as [Hc Hs].
  apply negb_true_iff in Hc.
  change (String c s ++ t)%string with (String c (s ++ t)).
  cbn [contains]. rewrite (prefix_dslash_not_slash _ _ Hc).
  cbn [orb]. now apply IH.
Qed.

Lemma contains_dslash_app a : forall s t,
  no_slash s = true -> s <> EmptyString ->
  contains "//" (a ++ s ++ t) = contains "//" a || contains "//" t.
Proof.
  induction a as [|c a IH]; intros s t Hs Hne.
  - cbn [append]. now rewrite contains_dslash_no_slash.
  - change (String c a ++ s ++ t)%string with (String c (a ++ s ++ t)).
    cbn [contains]. rewrite (IH s t Hs Hne), orb_assoc. f_equal. f_equal.
    destruct a as [|d a].
    + destruct s as [|d s]; [congruence|].
      cbn [no_slash] in Hs. apply andb_prop in Hs as [Hd _].
      apply negb_true_iff in Hd.
      cbn [append String.prefix].
      destruct (ascii_dec "/" c); [|reflexivity].
      destruct (ascii_dec "/" d) as [E|E]; [|reflexivity].
      subst d. discriminate.
    + cbn [append String.prefix].
      destruct (ascii_dec "/" c); [|reflexivity].
      destruct (ascii_dec "/" d); [|reflexivity].
      generalize (a ++ s ++ t)%string. intros x. now destruct a, x.
Qed.

Lemma matches_nonempty s :
  matches_HHMM_YYYYMMDD s = true -> s <> EmptyString.
Proof. intros H ->. discriminate. Qed.

Section WithParameters.
Variable NO_DATA : pyval.
Variable utcoffset : Z -> Z.
Variable session_get : string -> list (string * string) -> result pyval.

(** C7.  [threshold] asks for the window from [timestamp - window] to
    [timestamp]: the two dates of the request are formatted from these two
    instants, one GET goes to the render URL of the configured metric, and
    the result is [count_threshold] of the decoded answer with the
    configured threshold and flag; an exception of the formatting or of the
    transport is the outcome.  A configuration without the flag behaves as
    one whose flag is true. *)
Theorem threshold_delegates :
  (forall self timestamp window slo_config,
      let m := SLOConfig.backend_measurement
                 (SLOConfig.slo_backend slo_config) in
      threshold NO_DATA utcoffset session_get self timestamp window slo_config
      = (params <- query_params utcoffset (timestamp - window) timestamp ;;
         response <- session_get
                       (GraphiteClient.request_url (client self)
                          "render?target" (SLOConfig.metric m) params)
                       GraphiteClient.headers ;;
         count_threshold NO_DATA response (SLOConfig.threshold m)
           (match SLOConfig.good_below_threshold m with
            | Some b => b
            | None => true
            end))) /\
  (forall self timestamp window slo_config,
      let m := SLOConfig.backend_measurement
                 (SLOConfig.slo_backend slo_config) in
      threshold NO_DATA utcoffset session_get self timestamp window slo_config
      = (response <- query utcoffset session_get self
                       (timestamp - window) timestamp (SLOConfig.metric m) ;;
         count_threshold NO_DATA response (SLOConfig.threshold m)
           (match SLOConfig.good_below_threshold m with
            | Some b => b
            | None => true
            end))) /\
  (forall self timestamp window metric t,
      let config flag :=
        {| SLOConfig.slo_backend :=
             {| SLOConfig.backend_measurement :=
                  {| SLOConfig.metric := metric;
                     SLOConfig.threshold := t;
                     SLOConfig.good_below_threshold := flag |} |} |} in
      threshold NO_DATA utcoffset session_get self timestamp window
                (config None) =
      threshold NO_DATA utcoffset session_get self timestamp window
                (config (Some true))).
Proof.
  split; [|split].
  - intros self timestamp window slo_config m.
    unfold threshold, query, GraphiteClient.request. fold m.
    destruct (query_params utcoffset (timestamp - window) timestamp);
      reflexivity.
  - reflexivity.
  - reflexivity.
Qed.

(** C8, as amended.  When the local times of [start] and [end] fall in
    the years 1000 to 9999, [query] builds the parameters [from], [until]
    and [format], in this order, the two dates match the pattern
    [HH:MM_YYYYMMDD], [format] is [json], and the GET goes to the render
    URL that carries them. *)
Theorem query_formats_dates : forall start end_,
  four_digit_year (start + utcoffset start) ->
  four_digit_year (end_ + utcoffset end_) ->
  exists from until,
    query_params utcoffset start end_ =
      Return [("from", Some from); ("until", Some until);
              ("format", Some "json")] /\
    matches_HHMM_YYYYMMDD from = true /\
    matches_HHMM_YYYYMMDD until = true /\
    forall self metric,
      query utcoffset session_get self start end_ metric =
      session_get
        (GraphiteClient.url (client self) ++ "/render?target=" ++ metric
           ++ "&from=" ++ from ++ "&until=" ++ until ++ "&format=json")%string
        GraphiteClient.headers.
Proof.
  intros start end_ Hs He.
  destruct (fromtimestamp_fields utcoffset start Hs)
    as (dt1 & E1 & Hy1 & Hm1 & Hd1 & Hh1 & Hmi1).
  destruct (fromtimestamp_fields utcoffset end_ He)
    as (dt2 & E2 & Hy2 & Hm2 & Hd2 & Hh2 & Hmi2).
  exists (DateTime.strftime dt1 "%H:%M_%Y%m%d"),
         (DateTime.strftime dt2 "%H:%M_%Y%m%d").
  unfold query, query_params. rewrite E1, E2. cbn [bind].
  split; [reflexivity|].
  split; [now apply strftime_matches|].
  split; [now apply strftime_matches|].
  intros self metric.
  unfold GraphiteClient.request, GraphiteClient.request_url,
    GraphiteClient.params_str.
  cbn [flat_map fst snd app String.concat].
  f_equal. rewrite !string_app_assoc. reflexivity.
Qed.

End WithParameters.

(** C9.  For the API URL [http://g/] and the metric [a.b.c], with the two
    dates in the pattern [query] gives them, the URL of the request is
    [http://] followed by a text without a double slash, and it holds
    [target=a.b.c]; the client has stripped the trailing slash of the API
    URL. *)
Theorem request_url_no_double_slash : forall from until,
  matches_HHMM_YYYYMMDD from = true ->
  matches_HHMM_YYYYMMDD until = true ->
  let self := GraphiteClient.init "http://g/" in
  let url := GraphiteClient.request_url self "render?target" "a.b.c"
               [("from", Some from); ("until", Some until);
                ("format", Some "json")] in
  GraphiteClient.url self = "http://g" /\
  (exists rest, url = ("http://" ++ rest)%string /\
                contains "//" rest = false) /\
  contains "target=a.b.c" url = true.
Proof.
  intros from until Hf Hu self url.
  split; [reflexivity|]. split.
  - exists ("g/render?target=a.b.c&from=" ++ from
            ++ "&until=" ++ until ++ "&format=json")%string.
    split.
    + subst url self.
      unfold GraphiteClient.request_url, GraphiteClient.params_str.
      cbn [flat_map fst snd app String.concat GraphiteClient.init
           GraphiteClient.url GraphiteClient.rstrip].
      cbn. rewrite ?string_app_assoc. reflexivity.
    + rewrite contains_dslash_app
        by (auto using matches_no_slash, matches_nonempty).
      rewrite contains_dslash_app
        by (auto using matches_no_slash, matches_nonempty).
      reflexivity.
  - reflexivity.
Qed.

End RequestProofs.

(** ** The statements at concrete inputs *)

Module Concrete.
Import GraphiteBackend Response Loops Text Samples.
Local Open Scope list_scope.

(** X1 at the sample 50 against the threshold 50.0, in the last series. *)
Lemma threshold_equal_is_below_witness :
  threshold_loop [encode_point (Some (NInt 50), 7)] (NFloat (50 # 1)) [] []
    = threshold_loop [] (NFloat (50 # 1)) ([] ++ [of_num (NInt 50)]) [] /\
  count_threshold no_data
    (encode ([] ++ [ {| target := "a";
                        datapoints := [] ++ (Some (NInt 50), 7) :: [] |} ]))
    (NFloat (50 # 1)) true
  = Return (VInt (Z.of_nat (S (count_below (NFloat (50 # 1)) ([] ++ [])))),
            VInt (Z.of_nat (count_above (NFloat (50 # 1)) ([] ++ [])))).
Proof.
  split.
  - apply (proj1 (ThresholdProofs.threshold_equal_is_below no_data)).
    reflexivity.
  - apply (proj1 (proj2 (proj2
             (ThresholdProofs.threshold_equal_is_below no_data)))).
    reflexivity.
Defined.



(** C6 at the empty object, an empty result list, a series without
    [data], and a data point without [values]. *)
Lemma count_no_data_witness :
  count no_data exact_sum (VDict []) = Return no_data /\
  count no_data exact_sum (VDict [("result", VList [])]) = Return no_data /\
  count no_data exact_sum (VDict [("result", VList [VDict []])])
    = Return no_data /\
  count no_data exact_sum
    (VDict [("result", VList [VDict [("data", VList [VDict []])]])])
    = Return no_data.
Proof.
  pose proof (CountProofs.count_no_data no_data exact_sum)
    as (H1 & H2 & H3 & H4).
  split; [|split; [|split]].
  - apply H1. reflexivity.
  - apply H2. reflexivity.
  - apply (H3 _ [] []); reflexivity.
  - apply (H4 _ [("data", VList [VDict []])] [] [] [] []); reflexivity.
Defined.

(** C6 as first stated fails on a response that is empty or holds a
    null where a container is expected: on the empty list, and on an
    object whose [result] is null, subscripting raises [TypeError], which
    the handler does not list, and [count] does not return [NO_DATA]. *)
Lemma count_wrong_type_raises :
  count no_data exact_sum (VList []) = Raise TypeError /\
  count no_data exact_sum (VDict [("result", VNone)]) = Raise TypeError /\
  count no_data exact_sum (VList []) <> Return no_data /\
  count no_data exact_sum (VDict [("result", VNone)]) <> Return no_data.
Proof. repeat split; discriminate. Qed.

(** C8 at two instants of 2 February 2021. *)
Lemma query_formats_dates_witness :
  exists from until,
    query_params utc 1612257900 1612258200 =
      Return [("from", Some from); ("until", Some until);
              ("format", Some "json")] /\
    matches_HHMM_YYYYMMDD from = true /\
    matches_HHMM_YYYYMMDD until = true /\
    forall self metric,
      query utc no_series self 1612257900 1612258200 metric =
      no_series
        (GraphiteClient.url (client self) ++ "/render?target=" ++ metric
           ++ "&from=" ++ from ++ "&until=" ++ until ++ "&format=json")%string
        GraphiteClient.headers.
Proof.
  apply (RequestProofs.query_formats_dates utc no_series
           1612257900 1612258200);
    unfold four_digit_year, utc; lia.
Defined.

(** C8 as first stated fails on either side of the four-digit years.
    At the last second of the year 999 the year is printed with three
    digits, and the date does not match the pattern; at the first second
    of the year 10000 [fromtimestamp] raises [ValueError] and [query]
    builds no parameters at all. *)
Lemma query_outside_four_digit_years :
  (query_params utc (-30610224001) 1612258200 =
     Return [("from", Some "23:59_9991231");
             ("until", Some "09:30_20210202"); ("format", Some "json")] /\
   matches_HHMM_YYYYMMDD "23:59_9991231" = false) /\
  query_params utc 253402300800 253402300800 = Raise ValueError /\
  ~ (exists from until,
        query_params utc 253402300800 253402300800 =
          Return [("from", Some from); ("until", Some until);
                  ("format", Some "json")] /\
        matches_HHMM_YYYYMMDD from = true /\
        matches_HHMM_YYYYMMDD until = true).
Proof.
  assert (H : query_params utc 253402300800 253402300800
              = Raise ValueError) by (vm_compute; reflexivity).
  split; [split; vm_compute; reflexivity|].
  split; [exact H|].
  intros (from & until & E & _). rewrite H in E. discriminate.
Qed.

(** C9 at the dates of the request above. *)
Lemma request_url_no_double_slash_witness :
  let self := GraphiteClient.init "http://g/" in
  let url := GraphiteClient.request_url self "render?target" "a.b.c"
               [("from", Some "09:25_20210202");
                ("until", Some "09:30_20210202");
                ("format", Some "json")] in
  GraphiteClient.url self = "http://g" /\
  (exists rest, url = ("http://" ++ rest)%string /\
                contains "//" rest = false) /\
  contains "target=a.b.c" url = true.
Proof.
  apply (RequestProofs.request_url_no_double_slash
           "09:25_20210202" "09:30_20210202"); reflexivity.
Defined.

(** C10 at a response whose last series holds one null sample, at a
    return on two present samples, and at a well-formed response. *)
Lemma count_threshold_counts_witness :
  (count_threshold_try
     (encode ([ {| target := "a"; datapoints := [(Some (NInt 1), 1)] |} ] ++
              [ {| target := "b"; datapoints := [(None, 2)] |} ]))
     (NInt 50) true = Return (VInt 0, VInt 0) /\
   count_threshold no_data
     (encode ([ {| target := "a"; datapoints := [(Some (NInt 1), 1)] |} ] ++
              [ {| target := "b"; datapoints := [(None, 2)] |} ]))
     (NInt 50) true = Return (VInt 0, VInt 0) /\
   (no_data <> VInt 0 ->
    count_threshold no_data
      (encode ([ {| target := "a"; datapoints := [(Some (NInt 1), 1)] |} ] ++
               [ {| target := "b"; datapoints := [(None, 2)] |} ]))
      (NInt 50) true <> Return (no_data, no_data))) /\
  ((VInt 1 = no_data /\ VInt 1 = no_data /\
    exists e,
      count_threshold_try
        (encode [ {| target := "a";
                     datapoints := [(Some (NInt 10), 1); (None, 2);
                                    (Some (NInt 60), 3)] |} ])
        (NInt 50) true = Raise e) \/
   (exists front s values zg zb,
       encode [ {| target := "a";
                   datapoints := [(Some (NInt 10), 1); (None, 2);
                                  (Some (NInt 60), 3)] |} ]
         = VList (front ++ [s]) /\
       series_values s = Return values /\
       VInt 1 = VInt zg /\ VInt 1 = VInt zb /\ 0 <= zg /\ 0 <= zb /\
       zg + zb = Z.of_nat (List.length (not_none values)))).
Proof.
  pose proof (ThresholdProofs.count_threshold_counts no_data) as (H1 & H2 & _).
  split.
  - apply H1. cbn [datapoints]. repeat constructor.
  - apply (H2 _ (NInt 50) true). reflexivity.
Defined.

End Concrete.

(** ** Further properties of [count_threshold] *)

Module ThresholdMore.
Import GraphiteBackend Response Loops Shapes.
Local Open Scope list_scope.

Lemma py_getitem_int_exn v i e :
  py_getitem_int v i = Raise e -> lookup_exn e.
Proof.
  unfold lookup_exn.
  destruct v as [| | | |s|l|d]; cbn; try (intros [= <-]; auto).
  - destruct (nth_error (chars s) i); intros [= <-]; auto.
  - destruct (nth_error l i); intros [= <-]; auto.
Qed.

Lemma py_getitem_str_exn v k e :
  py_getitem_str v k = Raise e -> lookup_exn e.
Proof.
  unfold lookup_exn.
  destruct v as [| | | |s|l|d]; cbn; try (intros [= <-]; auto).
  destruct (dict_lookup k d); intros [= <-]; auto.
Qed.

Lemma py_iter_exn v e : py_iter v = Raise e -> lookup_exn e.
Proof.
  unfold lookup_exn. destruct v; cbn; intros [= <-]; auto.
Qed.

Lemma py_le_exn v t e : py_le v t = Raise e -> lookup_exn e.
Proof.
  unfold lookup_exn, py_le. destruct (as_number v); intros [= <-]; auto.
Qed.

Lemma threshold_loop_exn points : forall t below above e,
  threshold_loop points t below above = Raise e -> lookup_exn e.
Proof.
  induction points as [|p points IH]; intros t below above e H;
    cbn [threshold_loop] in H; [discriminate|].
  destruct (py_getitem_int p 0) as [v|e0] eqn:Hp; cbn [bind] in H;
    [|injection H as <-; eapply py_getitem_int_exn; eassumption].
  destruct (is_none v); [eapply IH; eassumption|].
  destruct (py_le v t) as [[|]|e0] eqn:Hle; cbn [bind] in H;
    [eapply IH; eassumption | eapply IH; eassumption |].
  injection H as <-. eapply py_le_exn; eassumption.
Qed.

Lemma series_buckets_exn t s e :
  series_buckets t s = Raise e -> lookup_exn e.
Proof.
  unfold series_buckets. intros H.
  destruct (py_getitem_str s "datapoints") as [d|e0] eqn:Hd; cbn [bind] in H;
    [|injection H as <-; eapply py_getitem_str_exn; eassumption].
  destruct (py_iter d) as [points|e0] eqn:Hi; cbn [bind] in H;
    [|injection H as <-; eapply py_iter_exn; eassumption].
  eapply threshold_loop_exn; eassumption.
Qed.

Lemma series_fold_exn t l : forall buckets e,
  series_fold t l buckets = Raise e -> lookup_exn e.
Proof.
  induction l as [|s l IH]; intros buckets e H; cbn [series_fold] in H;
    [discriminate|].
  destruct (series_buckets t s) as [b|e0] eqn:Hs; cbn [bind] in H;
    [eapply IH; eassumption|].
  injection H as <-. eapply series_buckets_exn; eassumption.
Qed.

(** After at least one round the two names are bound. *)
Lemma series_fold_some t l : forall b r,
  series_fold t l (Some b) = Return r -> exists b', r = Some b'.
Proof.
  induction l as [|s l IH]; intros b r H; cbn [series_fold] in H.
  - injection H as <-. now exists b.
  - destruct (series_buckets t s) as [b0|e]; cbn [bind] in H; [|discriminate].
    eapply IH; eassumption.
Qed.

Lemma series_fold_bound t s l buckets :
  series_fold t (s :: l) buckets <> Return None.
Proof.
  intros H. cbn [series_fold] in H.
  destruct (series_buckets t s) as [b|e]; cbn [bind] in H; [|discriminate].
  apply series_fold_some in H as [b' H]. discriminate.
Qed.

(** The three ways the body of [count_threshold] can end. *)
Lemma count_threshold_try_cases response t g :
  (exists good bad, count_threshold_try response t g = Return (good, bad)) \/
  (exists e, count_threshold_try response t g = Raise e /\ lookup_exn e) \/
  (count_threshold_try response t g = Raise UnboundLocalError /\
   (response = VStr EmptyString \/ response = VList [] \/
    response = VDict [])).
Proof.
  unfold lookup_exn.
  destruct response as [| | | |s|l|d];
    try (right; left; exists TypeError; split; [reflexivity | auto]).
  - destruct s as [|c s].
    + right; right. split; [reflexivity | auto].
    + right; left. exists TypeError. split; [reflexivity | auto].
  - destruct l as [|s l].
    + right; right. split; [reflexivity | auto].
    + rewrite ThresholdProofs.count_threshold_try_fold.
      destruct (series_fold t (s :: l) None) as [[[below above]|]|e] eqn:H;
        cbn [bind].
      * left. destruct g; eauto.
      * now apply series_fold_bound in H.
      * right; left. exists e. split; [reflexivity|].
        eapply series_fold_exn; eassumption.
  - destruct d as [|kv d].
    + right; right. split; [reflexivity | auto].
    + right; left. exists KeyError. split; [reflexivity | auto].
Qed.

Lemma threshold_loop_app_encode pre : forall rest t below above,
  threshold_loop (map encode_point pre ++ rest) t below above =
  threshold_loop rest t
    (below ++ map of_num (filter (fun n => num_le n t) (present pre)))
    (above ++ map of_num
       (filter (fun n => negb (num_le n t)) (present pre))).
Proof.
  induction pre as [|[[n|] ts] pre IH]; intros rest t below above.
  - cbn. now rewrite !app_nil_r.
  - change (map encode_point ((Some n, ts) :: pre) ++ rest)
      with (encode_point (Some n, ts) :: (map encode_point pre ++ rest)).
    rewrite ThresholdProofs.threshold_loop_present. cbn [present filter].
    destruct (num_le n t); cbn [negb map]; rewrite IH;
      now rewrite <- ?app_assoc.
  - change (map encode_point ((None, ts) :: pre) ++ rest)
      with (encode_point (None, ts) :: (map encode_point pre ++ rest)).
    rewrite ThresholdProofs.threshold_loop_null. apply IH.
Qed.

(** The outcome of the loop over the series when one of them, after
    well-formed ones, fails. *)
Lemma series_fold_failing t ss s rest e buckets :
  series_buckets t s = Raise e ->
  series_fold t (map encode_series ss ++ s :: rest) buckets = Raise e.
Proof.
  intros H. rewrite ThresholdProofs.series_fold_app.
  destruct (ThresholdProofs.series_fold_encode t ss buckets) as [b ->].
  cbn [bind series_fold]. now rewrite H.
Qed.

Lemma filter_length_le {A} (p q : A -> bool) l :
  (forall x, p x = true -> q x = true) ->
  (List.length (filter p l) <= List.length (filter q l))%nat.
Proof.
  intros Hpq. induction l as [|x l IH]; cbn [filter]; [lia|].
  destruct (p x) eqn:Hp.
  - rewrite (Hpq x Hp). cbn [List.length]. lia.
  - destruct (q x); cbn [List.length]; lia.
Qed.

Lemma num_le_trans a b c :
  num_le a b = true -> num_le b c = true -> num_le a c = true.
Proof.
  unfold num_le. rewrite !Qle_bool_iff. apply Qle_trans.
Qed.

Lemma present_somes points : present points = somes (map fst points).
Proof.
  induction points as [|[[n|] ts] points IH]; cbn; now rewrite ?IH.
Qed.

Lemma somes_filter_perm (p : num -> bool) l1 l2 :
  Permutation l1 l2 ->
  List.length (filter p (somes l1)) = List.length (filter p (somes l2)).
Proof.
  induction 1 as [|[n|] l1 l2 _ IH|[x|] [y|] l|l1 l2 l3 _ IH1 _ IH2];
    cbn [somes filter]; try reflexivity; try assumption.
  - destruct (p n); cbn [List.length]; now rewrite IH.
  - destruct (p x), (p y); reflexivity.
  - now rewrite IH1.
Qed.

Section WithNoData.
Variable NO_DATA : pyval.

(** X2.  [count_threshold] raises [UnboundLocalError] exactly on the
    responses of length zero: the empty list, the empty object and the
    empty string. *)
Theorem count_threshold_unbound_iff : forall response t g,
  count_threshold NO_DATA response t g = Raise UnboundLocalError <->
  (response = VStr EmptyString \/ response = VList [] \/
   response = VDict []).
Proof.
  intros response t g. split.
  - unfold count_threshold.
    destruct (count_threshold_try_cases response t g)
      as [(good & bad & ->) | [(e0 & -> & He0) | [_ H]]]; cbn [try_except].
    + discriminate.
    + destruct He0 as [-> | [-> | ->]]; cbn; discriminate.
    + intros _. exact H.
  - intros [-> | [-> | ->]]; reflexivity.
Qed.

(** X3.  The flag only exchanges the two components: on every response,
    the result with the flag cleared is the result with the flag set with
    good and bad swapped, and an exception is the same exception. *)
Theorem count_threshold_flag_swaps : forall response t,
  count_threshold NO_DATA response t false =
  swap_result (count_threshold NO_DATA response t true).
Proof.
  intros response t. unfold count_threshold, count_threshold_try.
  destruct (py_len response) as [x|e]; cbn [bind].
  - destruct (series_loop response t x 0 None) as [[[below above]|]|e];
      cbn [bind try_except swap_result]; try reflexivity.
    destruct (existsb (exn_eqb e) [IndexError; KeyError; ZeroDivisionError]);
      reflexivity.
  - cbn [try_except].
    destruct (existsb (exn_eqb e) [IndexError; KeyError; ZeroDivisionError]);
      reflexivity.
Qed.

(** A response that is an object with at least one key, such as an
    error document, gives the sentinel pair: subscripting it with the
    index 0 is a [KeyError]. *)
Lemma count_threshold_object : forall key value d t g,
  count_threshold NO_DATA (VDict ((key, value) :: d)) t g =
  Return (NO_DATA, NO_DATA).
Proof. reflexivity. Qed.

(** X4.  A series without the key [datapoints] gives the sentinel pair
    when the series before it are well-formed, whatever comes after it,
    well-formed or not. *)
Theorem count_threshold_missing_datapoints : forall ss d rest t g,
  dict_lookup "datapoints" d = None ->
  count_threshold NO_DATA (VList (map encode_series ss ++ VDict d :: rest))
                  t g = Return (NO_DATA, NO_DATA).
Proof.
  intros ss d rest t g H. unfold count_threshold.
  rewrite ThresholdProofs.count_threshold_try_fold.
  rewrite (series_fold_failing t ss (VDict d) rest KeyError); [reflexivity|].
  unfold series_buckets. cbn. now rewrite H.
Qed.

(** X5.  A sample that is an empty list gives the sentinel pair, and a
    sample whose value is a string raises [TypeError] to the caller, when
    the series and the samples before it are well-formed, whatever comes
    after. *)
Theorem count_threshold_bad_sample : forall ss name pre post rest t g,
  let series sample :=
    VDict [("target", VStr name);
           ("datapoints", VList (map encode_point pre ++ sample :: post))] in
  count_threshold NO_DATA
    (VList (map encode_series ss ++ series (VList []) :: rest)) t g
    = Return (NO_DATA, NO_DATA) /\
  (forall text ts,
      count_threshold NO_DATA
        (VList (map encode_series ss
                ++ series (VList [VStr text; VInt ts]) :: rest)) t g
      = Raise TypeError).
Proof.
  intros ss name pre post rest t g series. split.
  - unfold count_threshold.
    rewrite ThresholdProofs.count_threshold_try_fold.
    rewrite (series_fold_failing t ss _ rest IndexError); [reflexivity|].
    unfold series, series_buckets. cbn [py_getitem_str dict_lookup String.eqb
      Ascii.eqb Bool.eqb bind py_iter].
    now rewrite threshold_loop_app_encode.
  - intros text ts. unfold count_threshold.
    rewrite ThresholdProofs.count_threshold_try_fold.
    rewrite (series_fold_failing t ss _ rest TypeError); [reflexivity|].
    unfold series, series_buckets. cbn [py_getitem_str dict_lookup String.eqb
      Ascii.eqb Bool.eqb bind py_iter].
    now rewrite threshold_loop_app_encode.
Qed.

(** X6.  On a well-formed response the result is that of the response
    made of its last series alone: the series before the last do not
    count. *)
Theorem count_threshold_last_series_only : forall ss s t g,
  count_threshold NO_DATA (encode (ss ++ [s])) t g =
  count_threshold NO_DATA (encode [s]) t g.
Proof.
  intros ss s t g.
  change (encode [s]) with (encode ([] ++ [s])).
  now rewrite !ThresholdProofs.count_threshold_last.
Qed.

(** X7.  Raising the threshold never lowers the number of values counted
    below it nor raises the number counted above it. *)
Theorem count_threshold_monotone : forall ss s t1 t2,
  num_le t1 t2 = true ->
  exists good1 bad1 good2 bad2,
    count_threshold NO_DATA (encode (ss ++ [s])) t1 true
      = Return (VInt good1, VInt bad1) /\
    count_threshold NO_DATA (encode (ss ++ [s])) t2 true
      = Return (VInt good2, VInt bad2) /\
    good1 <= good2 /\ bad2 <= bad1.
Proof.
  intros ss s t1 t2 H.
  exists (Z.of_nat (count_below t1 (datapoints s))),
         (Z.of_nat (count_above t1 (datapoints s))),
         (Z.of_nat (count_below t2 (datapoints s))),
         (Z.of_nat (count_above t2 (datapoints s))).
  rewrite !ThresholdProofs.count_threshold_last.
  split; [reflexivity|]. split; [reflexivity|].
  unfold count_below, count_above. split; apply inj_le, filter_length_le.
  - intros n Hn. eapply num_le_trans; eassumption.
  - intros n Hn. apply negb_true_iff in Hn. apply negb_true_iff.
    destruct (num_le n t1) eqn:E; [|reflexivity].
    now rewrite (num_le_trans _ _ _ E H) in Hn.
Qed.

(** X8.  The result depends on the last series only through the multiset
    of its values: neither the order of the samples, nor their
    timestamps, nor the name of the series matter. *)
Theorem count_threshold_order_free : forall ss1 ss2 s1 s2 t g,
  Permutation (map fst (datapoints s1)) (map fst (datapoints s2)) ->
  count_threshold NO_DATA (encode (ss1 ++ [s1])) t g =
  count_threshold NO_DATA (encode (ss2 ++ [s2])) t g.
Proof.
  intros ss1 ss2 s1 s2 t g H.
  rewrite !ThresholdProofs.count_threshold_last.
  unfold count_below, count_above. rewrite !present_somes.
  rewrite (somes_filter_perm (fun n => num_le n t) _ _ H).
  now rewrite (somes_filter_perm (fun n => negb (num_le n t)) _ _ H).
Qed.

End WithNoData.
End ThresholdMore.

(** ** Further properties of [count] *)

Module CountMore.
Import GraphiteBackend Response Shapes.
Local Open Scope list_scope.

Lemma point_values_exn values : forall e,
  point_values values = Raise e -> e = TypeError.
Proof.
  induction values as [|p values IH]; intros e H; cbn [point_values] in H;
    [discriminate|].
  destruct (is_none p); [now apply IH|].
  unfold py_gt in H. destruct (as_number p) as [n|]; cbn [bind] in H;
    [|now injection H as <-].
  destruct (point_values values) as [kept|e0]; cbn [bind] in H;
    [discriminate|].
  injection H as <-. now apply IH.
Qed.

Lemma count_loop_exn points : forall values e,
  count_loop points values = Raise e -> lookup_exn e.
Proof.
  induction points as [|p points IH]; intros values e H;
    cbn [count_loop] in H; [discriminate|].
  destruct (py_getitem_str p "values") as [vs|e0] eqn:Hp; cbn [bind] in H;
    [|injection H as <-; eapply ThresholdMore.py_getitem_str_exn;
      eassumption].
  destruct (py_iter vs) as [items|e0] eqn:Hi; cbn [bind] in H;
    [|injection H as <-; eapply ThresholdMore.py_iter_exn; eassumption].
  destruct (point_values items) as [pv|e0] eqn:Hv; cbn [bind] in H;
    [eapply IH; eassumption|].
  injection H as <-. apply point_values_exn in Hv. subst e0.
  unfold lookup_exn. auto.
Qed.

Lemma positive_sum_app l1 l2 :
  positive_sum (l1 ++ l2) = positive_sum l1 + positive_sum l2.
Proof.
  induction l1 as [|[z|] l1 IH]; cbn [app positive_sum]; [lia| |exact IH].
  destruct (0 <? z); lia.
Qed.

Lemma positive_sum_nonneg l : 0 <= positive_sum l.
Proof.
  induction l as [|[z|] l IH]; cbn [positive_sum]; [lia| |exact IH].
  destruct (Z.ltb_spec 0 z); lia.
Qed.

Lemma positive_sum_zero l : positive_sum l = 0 <-> none_positive l.
Proof.
  unfold none_positive. pose proof positive_sum_nonneg as Hn.
  induction l as [|[z|] l IH]; cbn [positive_sum].
  - split; [constructor | reflexivity].
  - specialize (Hn l). destruct (Z.ltb_spec 0 z) as [Hz|Hz].
    + split; [lia|]. intros H. inversion H; subst. lia.
    + split.
      * intros H. constructor; [exact Hz | now apply IH].
      * intros H. inversion H; subst. now apply IH.
  - split.
    + intros H. constructor; [exact I | now apply IH].
    + intros H. inversion H; subst. now apply IH.
Qed.

Section WithNoData.
Variable NO_DATA : pyval.
Variable float_sum : Z -> list number -> float_value.

Lemma sum_from_exn items : forall acc e,
  sum_from float_sum acc items = Raise e -> e = OverflowError.
Proof.
  induction items as [|[z|f] items IH]; intros acc e H; cbn [sum_from] in H.
  - discriminate.
  - eapply IH; eassumption.
  - destruct (too_large acc || has_too_large items)%bool;
      [now injection H as <- | discriminate].
Qed.

(** X9.  Whatever the response, an exception [count] lets through to the
    caller is a [TypeError] or the [OverflowError] of the final sum;
    [IndexError] and [KeyError] never escape. *)
Theorem count_escapes : forall response e,
  count NO_DATA float_sum response = Raise e ->
  e = TypeError \/ e = OverflowError.
Proof.
  intros response e. unfold count.
  assert (Hx : forall e0, count_try float_sum response = Raise e0 ->
                          lookup_exn e0 \/ e0 = OverflowError).
  { intros e0 H. unfold count_try in H.
    destruct (py_getitem_str response "result") as [r|e1] eqn:H1;
      cbn [bind] in H;
      [|injection H as <-; left; eapply ThresholdMore.py_getitem_str_exn;
        eassumption].
    destruct (py_getitem_int r 0) as [f|e1] eqn:H2; cbn [bind] in H;
      [|injection H as <-; left; eapply ThresholdMore.py_getitem_int_exn;
        eassumption].
    destruct (py_getitem_str f "data") as [d|e1] eqn:H3; cbn [bind] in H;
      [|injection H as <-; left; eapply ThresholdMore.py_getitem_str_exn;
        eassumption].
    destruct (py_iter d) as [points|e1] eqn:H4; cbn [bind] in H;
      [|injection H as <-; left; eapply ThresholdMore.py_iter_exn;
        eassumption].
    destruct (count_loop points []) as [values|e1] eqn:H5; cbn [bind] in H.
    - right. unfold py_sum in H. eapply sum_from_exn; eassumption.
    - injection H as <-. left. eapply count_loop_exn; eassumption. }
  destruct (count_try float_sum response) as [v|e0]; cbn [try_except];
    [discriminate|].
  destruct (Hx e0 eq_refl) as [[-> | [-> | ->]] | ->]; cbn; intros H;
    try discriminate; injection H as <-; auto.
Qed.

(** X10.  [count] reads the first series only: what follows it under
    [result], well-formed or not, and any other key of the response have
    no effect on the result. *)
Theorem count_first_series_only : forall d first rest,
  dict_lookup "result" d = Some (VList (encode_count_series first :: rest)) ->
  count NO_DATA float_sum (VDict d) =
  count NO_DATA float_sum (encode_count [first]).
Proof.
  intros d first rest H.
  assert (E : count_try float_sum (VDict d) =
              count_try float_sum (encode_count [first])).
  { unfold count_try, encode_count. cbn [py_getitem_str]. rewrite H.
    reflexivity. }
  unfold count. now rewrite E.
Qed.

Lemma count_int (first : list (list (option Z))) rest :
  count NO_DATA float_sum (encode_count (map (map int_value) first :: rest))
  = Return (VInt (positive_sum (List.concat first))).
Proof.
  unfold count. rewrite CountProofs.count_try_first.
  now rewrite <- concat_map, CountProofs.py_sum_int.
Qed.

(** X11.  Over integer samples a well-formed response gives a
    non-negative integer, and gives 0, not the sentinel, exactly when no
    sample of the first series is strictly positive, the series with no
    data point included. *)
Theorem count_nonnegative : forall (first : list (list (option Z))) rest,
  exists z,
    count NO_DATA float_sum
          (encode_count (map (map int_value) first :: rest))
      = Return (VInt z) /\
    0 <= z /\
    (z = 0 <-> none_positive (List.concat first)).
Proof.
  intros first rest. exists (positive_sum (List.concat first)).
  split; [apply count_int|].
  split; [apply positive_sum_nonneg | apply positive_sum_zero].
Qed.

(** X12.  Over integer samples the result is additive in the data points
    of the first series: the count of a series made of two runs of data
    points is the sum of the counts of the two runs. *)
Theorem count_additive : forall (run1 run2 : list (list (option Z))) rest,
  exists a b,
    count NO_DATA float_sum (encode_count (map (map int_value) run1 :: rest))
      = Return (VInt a) /\
    count NO_DATA float_sum (encode_count (map (map int_value) run2 :: rest))
      = Return (VInt b) /\
    count NO_DATA float_sum
          (encode_count (map (map int_value) (run1 ++ run2) :: rest))
      = Return (VInt (a + b)).
Proof.
  intros run1 run2 rest.
  exists (positive_sum (List.concat run1)), (positive_sum (List.concat run2)).
  rewrite !count_int. repeat split.
  now rewrite concat_app, positive_sum_app.
Qed.

End WithNoData.
End CountMore.

(** ** Further properties of the client *)

Module ClientMore.
Import GraphiteClient Shapes.

Lemma rstrip_slashes k : rstrip "/" (slashes k) = EmptyString.
Proof. induction k as [|k IH]; cbn [slashes rstrip]; now rewrite ?IH. Qed.

Lemma rstrip_app_slashes s k : rstrip "/" (s ++ slashes k) = rstrip "/" s.
Proof.
  induction s as [|a s IH]; cbn [append rstrip].
  - apply rstrip_slashes.
  - now rewrite IH.
Qed.

(** What [rstrip] keeps and what it drops. *)
Lemma rstrip_spec s :
  (exists k, s = (rstrip "/" s ++ slashes k)%string) /\
  ends_with_slash (rstrip "/" s) = false.
Proof.
  induction s as [|a s [[k Hk] He]]; cbn [rstrip].
  - split; [now exists 0%nat | reflexivity].
  - destruct (rstrip "/" s) as [|b r] eqn:Hr.
    + cbn [append] in Hk. destruct (Ascii.eqb a "/") eqn:Ha.
      * apply Ascii.eqb_eq in Ha. subst a. split; [|reflexivity].
        exists (S k). cbn [append slashes]. now rewrite <- Hk.
      * split; [|cbn [ends_with_slash]; exact Ha].
        exists k. cbn [append]. now rewrite <- Hk.
    + split; [|exact He].
      exists k. change (String a (String b r) ++ slashes k)%string
        with (String a (String b r ++ slashes k)). now rewrite <- Hk.
Qed.

Lemma rstrip_fixed s : ends_with_slash s = false -> rstrip "/" s = s.
Proof.
  induction s as [|a s IH]; [reflexivity|]. intros H.
  cbn [rstrip]. destruct s as [|b s].
  - cbn [rstrip]. cbn [ends_with_slash] in H. now rewrite H.
  - rewrite IH by exact H. reflexivity.
Qed.

(** X13.  The URL a client keeps is the API URL without its trailing
    slashes: the API URL is the kept URL followed by slashes only, and the
    kept URL does not end with a slash. *)
Theorem client_url_stripped : forall api_url,
  (exists k, api_url = (url (init api_url) ++ slashes k)%string) /\
  ends_with_slash (url (init api_url)) = false.
Proof. intros api_url. apply rstrip_spec. Qed.

(** X14.  Trailing slashes of the API URL make no difference: clients
    built from API URLs that differ only in them build the same request
    URL, and building a client from the URL another client keeps gives
    that client again. *)
Theorem client_trailing_slashes : forall api_url k endpoint metric params,
  request_url (init (api_url ++ slashes k)) endpoint metric params =
  request_url (init api_url) endpoint metric params /\
  init (url (init api_url)) = init api_url.
Proof.
  intros api_url k endpoint metric params. unfold init. split.
  - now rewrite rstrip_app_slashes.
  - cbn [url]. f_equal. apply rstrip_fixed. apply rstrip_spec.
Qed.

(** X15.  A parameter whose value is [None] leaves no trace in the
    request URL. *)
Theorem request_url_skips_none : forall self endpoint metric key before after,
  request_url self endpoint metric (before ++ (key, None) :: after) =
  request_url self endpoint metric (before ++ after).
Proof.
  intros self endpoint metric key before after.
  unfold request_url, params_str. now rewrite !flat_map_app.
Qed.

End ClientMore.

(** ** Further properties of [query] and [threshold] *)

Module QueryMore.
Import GraphiteBackend Response DateTime Shapes Text.

Ltac Zify.zify_post_hook ::= Z.to_euclidean_division_equations.

(** The years of the days past the last one a date can hold, as far as
    10^15 seconds go. *)
Lemma civil_year_beyond days :
  2932897 <= days < 11574074075 ->
  10000 <= fst (fst (civil_from_days days)) <= 40000000.
Proof.
  intros Hd. unfold civil_from_days. cbn [fst snd].
  set (z := days + 719468).
  assert (Hz : 3652365 <= z < 11574793543) by (subst z; lia). clearbody z.
  set (era := z / 146097).
  set (doe := z mod 146097).
  assert (Hdoe : 0 <= doe < 146097)
    by (subst doe; apply Z.mod_pos_bound; lia).
  assert (Hz' : z = 146097 * era + doe)
    by (subst era doe; apply Z.div_mod; lia).
  clearbody era doe.
  set (yoe := (doe - doe / 1460 + doe / 36524 - doe / 146096) / 365).
  assert (Hyoe : 0 <= yoe <= 399) by (subst yoe; lia).
  set (doy := doe - (365 * yoe + yoe / 4 - yoe / 100)).
  assert (Hdoy : 0 <= doy <= 365) by (subst doy yoe; lia).
  set (mp := (5 * doy + 2) / 153).
  assert (Hmp : 0 <= mp <= 11) by (subst mp; lia).
  destruct (Z.ltb_spec mp 10) as [Hlt|Hge].
  - destruct (Z.leb_spec (mp + 3) 2); [lia|]. subst mp doy yoe. lia.
  - destruct (Z.leb_spec (mp - 9) 2); [|lia]. subst mp doy yoe. lia.
Qed.

(** Past the year 9999 [fromtimestamp] raises [ValueError]. *)
Lemma fromtimestamp_beyond utcoffset ts :
  beyond_max_year (ts + utcoffset ts) ->
  fromtimestamp utcoffset ts = Raise ValueError.
Proof.
  unfold beyond_max_year, fromtimestamp. intros H.
  set (local := ts + utcoffset ts) in *. clearbody local.
  assert (Hpow : 10 ^ 15 = 1000000000000000) by reflexivity.
  assert (Y : 10000 <= year_of local <= 40000000).
  { unfold year_of. apply civil_year_beyond. lia. }
  destruct (civil_from_days (local / 86400)) as [[y m] d] eqn:E.
  assert (L : localtime_ok local = true).
  { unfold localtime_ok. apply andb_true_intro. split; apply Z.leb_le; lia. }
  assert (K : year_ok local = false).
  { unfold year_ok, MINYEAR, MAXYEAR. apply andb_false_intro2.
    apply Z.leb_gt. lia. }
  now rewrite L, K.
Qed.


Section WithParameters.
Variable NO_DATA : pyval.
Variable utcoffset : Z -> Z.
Variable session_get : string -> list (string * string) -> result pyval.

Lemma query_params_four_digit start end_ :
  four_digit_year (start + utcoffset start) ->
  four_digit_year (end_ + utcoffset end_) ->
  exists params, query_params utcoffset start end_ = Return params.
Proof.
  intros Hs He. unfold query_params.
  destruct (DateProofs.fromtimestamp_fields utcoffset start Hs)
    as (dt1 & -> & _).
  destruct (DateProofs.fromtimestamp_fields utcoffset end_ He)
    as (dt2 & -> & _).
  cbn [bind]. eexists. reflexivity.
Qed.

(** X16.  Past the year 9999 [query] raises [ValueError] and nothing is
    sent, whatever the client, the metric and the transport: so it is
    when the local time of [start] lies between the year 10000 and 10^15
    seconds, whatever [end] is, and when the local time of [end] does
    while that of [start] lies in the years 1000 to 9999.  An instant
    given in milliseconds, as the docstring of [query] has it, falls
    there for every date from 12 January 1978 on. *)
Theorem query_beyond_max_year : forall start end_ self metric,
  (beyond_max_year (start + utcoffset start) ->
   query utcoffset session_get self start end_ metric = Raise ValueError) /\
  (four_digit_year (start + utcoffset start) ->
   beyond_max_year (end_ + utcoffset end_) ->
   query utcoffset session_get self start end_ metric = Raise ValueError).
Proof.
  intros start end_ self metric. unfold query, query_params. split.
  - intros Hs. now rewrite (fromtimestamp_beyond _ _ Hs).
  - intros Hs He.
    destruct (DateProofs.fromtimestamp_fields utcoffset start Hs)
      as (dt1 & -> & _).
    now rewrite (fromtimestamp_beyond _ _ He).
Qed.


(** X18.  An exception of the transport is not turned into the sentinel:
    when the local times of both ends of the window lie in the years 1000
    to 9999 and the request fails with an exception, [threshold] raises
    that exception, should it even be a [KeyError] or an [IndexError]. *)
Theorem threshold_transport_error : forall self timestamp window slo_config e,
  four_digit_year (timestamp - window + utcoffset (timestamp - window)) ->
  four_digit_year (timestamp + utcoffset timestamp) ->
  (forall url headers, session_get url headers = Raise e) ->
  threshold NO_DATA utcoffset session_get self timestamp window slo_config
  = Raise e.
Proof.
  intros self timestamp window slo_config e Hs He Hget.
  unfold threshold, query, GraphiteClient.request.
  destruct (query_params_four_digit _ _ Hs He) as [params ->].
  cbn [bind]. now rewrite Hget.
Qed.

(** X19.  End to end: when the local times of both ends of the window
    lie in the years 1000 to 9999 and the transport answers with a
    well-formed response of at least one series, [threshold] returns the
    numbers of present values of the last series at most and above the
    configured threshold, in this order unless the configuration clears
    the flag. *)
Theorem threshold_counts : forall self timestamp window slo_config ss s,
  four_digit_year (timestamp - window + utcoffset (timestamp - window)) ->
  four_digit_year (timestamp + utcoffset timestamp) ->
  (forall url headers,
      session_get url headers = Return (encode (ss ++ [s]))) ->
  let m := SLOConfig.backend_measurement
             (SLOConfig.slo_backend slo_config) in
  let below := VInt (Z.of_nat
                 (count_below (SLOConfig.threshold m) (datapoints s))) in
  let above := VInt (Z.of_nat
                 (count_above (SLOConfig.threshold m) (datapoints s))) in
  threshold NO_DATA utcoffset session_get self timestamp window slo_config
  = Return (match SLOConfig.good_below_threshold m with
            | Some false => (above, below)
            | _ => (below, above)
            end).
Proof.
  intros self timestamp window slo_config ss s Hs He Hget m below above.
  unfold threshold, query, GraphiteClient.request.
  destruct (query_params_four_digit _ _ Hs He) as [params ->].
  cbn [bind]. rewrite Hget. cbn [bind].
  rewrite ThresholdProofs.count_threshold_last. fold m.
  now destruct (SLOConfig.good_below_threshold m) as [[|]|].
Qed.

End WithParameters.
End QueryMore.

(** ** The further statements at concrete inputs *)

Module ConcreteMore.
Import GraphiteBackend Response Shapes Samples.
Local Open Scope list_scope.

(** X2 at the empty list, in both directions. *)
Lemma count_threshold_unbound_iff_witness :
  count_threshold no_data (VList []) (NInt 50) true = Raise UnboundLocalError
  /\ (VList [] = VStr EmptyString \/ VList [] = VList [] \/
      VList [] = VDict []).
Proof.
  pose proof (ThresholdMore.count_threshold_unbound_iff
                no_data (VList []) (NInt 50) true) as [H1 H2].
  assert (H : count_threshold no_data (VList []) (NInt 50) true
              = Raise UnboundLocalError)
    by (apply H2; right; left; reflexivity).
  split; [exact H | exact (H1 H)].
Defined.

(** X4 at a series that holds only its name, after a well-formed series
    and before a null. *)
Lemma count_threshold_missing_datapoints_witness :
  count_threshold no_data
    (VList (map encode_series
              [ {| target := "a"; datapoints := [(Some (NInt 1), 1)] |} ]
            ++ VDict [("target", VStr "b")] :: [VNone]))
    (NInt 50) true = Return (no_data, no_data).
Proof.
  apply (ThresholdMore.count_threshold_missing_datapoints no_data).
  reflexivity.
Defined.

(** X7 at the thresholds 10 and 20.5 on the values 5, 15, 30. *)
Lemma count_threshold_monotone_witness :
  exists good1 bad1 good2 bad2,
    count_threshold no_data
      (encode ([] ++ [ {| target := "a";
                          datapoints := [(Some (NInt 5), 1);
                                         (Some (NInt 15), 2);
                                         (Some (NInt 30), 3)] |} ]))
      (NInt 10) true = Return (VInt good1, VInt bad1) /\
    count_threshold no_data
      (encode ([] ++ [ {| target := "a";
                          datapoints := [(Some (NInt 5), 1);
                                         (Some (NInt 15), 2);
                                         (Some (NInt 30), 3)] |} ]))
      (NFloat (41 # 2)) true = Return (VInt good2, VInt bad2) /\
    good1 <= good2 /\ bad2 <= bad1.
Proof.
  apply (ThresholdMore.count_threshold_monotone no_data). reflexivity.
Defined.

(** X8 at two series with the same values in another order, under other
    names and timestamps. *)
Lemma count_threshold_order_free_witness :
  count_threshold no_data
    (encode ([] ++ [ {| target := "a";
                        datapoints := [(Some (NInt 1), 1); (None, 2);
                                       (Some (NInt 60), 3)] |} ]))
    (NInt 50) true =
  count_threshold no_data
    (encode ([ {| target := "c"; datapoints := [] |} ] ++
             [ {| target := "b";
                  datapoints := [(Some (NInt 60), 9); (Some (NInt 1), 8);
                                 (None, 7)] |} ]))
    (NInt 50) true.
Proof.
  apply (ThresholdMore.count_threshold_order_free no_data).
  cbn [datapoints map fst].
  eapply perm_trans; [apply perm_skip, perm_swap | apply perm_swap].
Defined.

(** X9 at a response that is a list. *)
Lemma count_escapes_witness :
  count no_data exact_sum (VList []) = Raise TypeError /\
  (TypeError = TypeError \/ TypeError = OverflowError).
Proof.
  split; [reflexivity|].
  apply (CountMore.count_escapes no_data exact_sum (VList []) TypeError).
  reflexivity.
Defined.

(** X10 at a response with another key before [result] and a null after
    the first series. *)
Lemma count_first_series_only_witness :
  count no_data exact_sum
    (VDict [("meta", VNone);
            ("result",
             VList (encode_count_series [[Some (NInt 5); None]] :: [VNone]))])
  = count no_data exact_sum (encode_count [[[Some (NInt 5); None]]]).
Proof.
  apply (CountMore.count_first_series_only no_data exact_sum _ _ [VNone]).
  reflexivity.
Defined.

(** X16 at a start, then at an end, given in milliseconds. *)
Lemma query_beyond_max_year_witness :
  query utc no_series (init None "http://g/") 1612257900000 1612258200 "a.b.c"
    = Raise ValueError /\
  query utc no_series (init None "http://g/") 1612257900 1612258200000 "a.b.c"
    = Raise ValueError.
Proof.
  split.
  - apply (proj1 (QueryMore.query_beyond_max_year utc no_series
                    1612257900000 1612258200 (init None "http://g/") "a.b.c")).
    unfold beyond_max_year, utc. lia.
  - apply (proj2 (QueryMore.query_beyond_max_year utc no_series
                    1612257900 1612258200000 (init None "http://g/") "a.b.c")).
    + unfold Text.four_digit_year, utc. lia.
    + unfold beyond_max_year, utc. lia.
Defined.


(** X18 at a transport that fails with [KeyError]. *)
Lemma threshold_transport_error_witness :
  threshold no_data utc (failing KeyError) (init None "http://g/")
    1612258200 300
    {| SLOConfig.slo_backend :=
         {| SLOConfig.backend_measurement :=
              {| SLOConfig.metric := "a.b.c";
                 SLOConfig.threshold := NInt 50;
                 SLOConfig.good_below_threshold := None |} |} |}
  = Raise KeyError.
Proof.
  apply (QueryMore.threshold_transport_error no_data utc (failing KeyError));
    [unfold Text.four_digit_year, utc; lia | unfold Text.four_digit_year, utc; lia | reflexivity].
Defined.

(** X19 at a transport that answers with two series, under a
    configuration that clears the flag. *)
Lemma threshold_counts_witness :
  threshold no_data utc
    (answering
       (encode ([ {| target := "a"; datapoints := [(Some (NInt 10), 1)] |} ]
                ++ [ {| target := "b";
                        datapoints := [(Some (NInt 60), 2); (None, 3);
                                       (Some (NInt 50), 4)] |} ])))
    (init None "http://g/") 1612258200 300
    {| SLOConfig.slo_backend :=
         {| SLOConfig.backend_measurement :=
              {| SLOConfig.metric := "a.b.c";
                 SLOConfig.threshold := NInt 50;
                 SLOConfig.good_below_threshold := Some false |} |} |}
  = Return (VInt 1, VInt 1).
Proof.
  refine (QueryMore.threshold_counts no_data utc _
            (init None "http://g/") 1612258200 300
            {| SLOConfig.slo_backend :=
                 {| SLOConfig.backend_measurement :=
                      {| SLOConfig.metric := "a.b.c";
                         SLOConfig.threshold := NInt 50;
                         SLOConfig.good_below_threshold := Some false |} |} |}
            [ {| target := "a"; datapoints := [(Some (NInt 10), 1)] |} ]
            {| target := "b";
               datapoints := [(Some (NInt 60), 2); (None, 3);
                              (Some (NInt 50), 4)] |}
            _ _ _);
    [unfold Text.four_digit_year, utc; lia | unfold Text.four_digit_year, utc; lia
     | intros url headers; reflexivity].
Defined.

End ConcreteMore.
